(** * Autogenerated notification routes (pkg/services/ngalert/notifier)

    A shallow embedding of [autogen_alertmanager.go]: the collection of
    notification settings, the three-layer route tree built from them, the
    hash of the whole tree and the merge into a user-created configuration.

    Go values are rendered as follows.
    - [uint64] is [N]; arithmetic that can overflow is reduced modulo 2^64.
    - a [string] is a [string], a slice is a [list], a pointer that may be
      [nil] is an [option].
    - a Go map is a [gmap]; the order in which [range] or [maps.Keys] visits
      it is unspecified, so it is an explicit list wherever the code iterates.
    - a function returning [(T, error)] returns a pair [T * option error]. *)

From Stdlib Require Import NArith ZArith Lia.
From stdpp Require Import base option list gmap strings pretty sorting.

Open Scope N_scope.

(** ** Errors *)

(** [errors.New] and [fmt.Errorf] with a single [%w] verb. *)
Inductive error : Type :=
  | errors_New (text : string)
  | fmt_Errorf_w (format : string) (wrapped : error).

(** What a third-party constructor returning a pointer and an [error] gives back. *)
Inductive result (A : Type) : Type :=
  | Ok (a : A)
  | Err (e : error).
Arguments Ok {A} a.
Arguments Err {A} e.

#[export] Instance result_ret : MRet result := λ A a, Ok a.
#[export] Instance result_bind : MBind result := λ A B f m,
  match m with
  | Ok a => f a
  | Err e => Err e
  end.

(** ** github.com/grafana/grafana-plugin-sdk-go/data *)
Module data.

(** [type Fingerprint uint64] *)
Definition Fingerprint : Type := N.

(** [Fingerprint.String] is declared outside of this package. *)
Class Decls := { Fingerprint_String : Fingerprint → string }.

End data.

(** ** hash/fnv and encoding/binary *)
Module fnv.

Definition offset64 : N := 14695981039346656037.
Definition prime64 : N := 1099511628211.
Definition two64 : N := 2 ^ 64.

(** [fnv.New64()] : the 64-bit FNV-1 state. *)
Definition New64 : N := offset64.

(** [sum64.Write] : multiply by the prime (wrapping), then xor the byte. *)
Definition Write (sum : N) (bytes : list N) : N :=
  foldl (λ hash c, N.lxor ((hash * prime64) mod two64) c) sum bytes.

Definition Sum64 (sum : N) : N := sum.

End fnv.

Module binary.

(** [binary.LittleEndian.PutUint64] : the eight bytes of [v], lowest first. *)
Definition PutUint64 (v : N) : list N :=
  (λ i, N.land (N.shiftr v (8 * N.of_nat i)) 255) <$> seq 0 8.

End binary.

(** ** slices.Sort on fingerprints *)

Definition slices_Sort (keys : list data.Fingerprint) : list data.Fingerprint :=
  merge_sort N.le keys.

(** ** calculateAutogeneratedRouteHash (lines 132-145) *)

(** The closure [write] of the source. *)
Definition write (sum : N) (fp : data.Fingerprint) : N :=
  fnv.Write (fnv.Write sum (binary.PutUint64 fp)) [255].

Definition calculateAutogeneratedRouteHash (fp : list data.Fingerprint) : data.Fingerprint :=
  fnv.Sum64 (foldl write fnv.New64 fp).

(** ** github.com/prometheus/alertmanager/pkg/labels *)
Module labels.

Inductive MatchType : Type :=
  | MatchEqual
  | MatchNotEqual
  | MatchRegexp
  | MatchNotRegexp.

(** The exported fields of [labels.Matcher]. *)
Record Matcher : Type := {
  Type_ : MatchType;
  Name : string;
  Value : string;
}.

(** [labels.NewMatcher] is third-party code: any function of its three
    arguments that returns a matcher or an error. *)
Class Decls := { NewMatcher : MatchType → string → string → result Matcher }.

End labels.

(** ** github.com/prometheus/common/model *)
Module model.

Class Decls := { AlertNameLabel : string }.

End model.

(** ** pkg/services/ngalert/models *)
Module models.

Record AlertRuleKey : Type := {
  OrgID : Z;
  UID : string;
}.

(** Durations are [*model.Duration], an [int64] behind a pointer. *)
Record NotificationSettings : Type := {
  Receiver : string;
  GroupBy : list string;
  GroupWait : option Z;
  GroupInterval : option Z;
  RepeatInterval : option Z;
  MuteTimeIntervals : list string;
}.

(** The zero value, which a Go map lookup yields for an absent key. *)
Definition NotificationSettings_zero : NotificationSettings :=
  {| Receiver := ""; GroupBy := []; GroupWait := None; GroupInterval := None;
     RepeatInterval := None; MuteTimeIntervals := [] |}.

(** Modelled from the spec: the body of [NotificationSettings.IsAllDefault]
    is not part of the sources at hand; it is "true iff every optional
    field is unset/zero". *)
Definition IsAllDefault (s : NotificationSettings) : bool :=
  match GroupBy s, GroupWait s, GroupInterval s, RepeatInterval s, MuteTimeIntervals s with
  | [], None, None, None, [] => true
  | _, _, _, _, _ => false
  end.

(** Declared in the package, bodies and values not part of the sources at
    hand: the settings fingerprint and the label names. *)
Class Decls := {
  Fingerprint : NotificationSettings → data.Fingerprint;
  AutogeneratedRouteLabel : string;
  AutogeneratedRouteReceiverNameLabel : string;
  AutogeneratedRouteSettingsHashLabel : string;
  FolderTitleLabel : string;
}.

End models.

(** ** pkg/services/ngalert/api/tooling/definitions *)
Module definitions.

(** The fields of [definitions.Route] that the package reads or writes. *)
#[warnings="-register-all"]
Inductive Route : Type := mkRoute {
  Receiver : string;
  ObjectMatchers : list labels.Matcher;
  Continue : bool;
  Routes : list Route;
  GroupByStr : list string;
  MuteTimeIntervals : list string;
  GroupWait : option Z;
  GroupInterval : option Z;
  RepeatInterval : option Z;
}.

(** [r.Receiver = x] *)
Definition set_Receiver (r : Route) (x : string) : Route :=
  mkRoute x (ObjectMatchers r) (Continue r) (Routes r) (GroupByStr r)
    (MuteTimeIntervals r) (GroupWait r) (GroupInterval r) (RepeatInterval r).

(** [r.Routes = rs] *)
Definition set_Routes (r : Route) (rs : list Route) : Route :=
  mkRoute (Receiver r) (ObjectMatchers r) (Continue r) rs (GroupByStr r)
    (MuteTimeIntervals r) (GroupWait r) (GroupInterval r) (RepeatInterval r).

(** [PostableApiAlertingConfig] embeds [Config], whose field [Route] is the
    root route; [Other] stands for every field the package leaves alone. *)
Record PostableApiAlertingConfig (Other : Type) : Type := {
  Config_Route : option Route;
  Config_other : Other;
}.
Arguments Config_Route {Other} _.
Arguments Config_other {Other} _.

Record PostableUserConfig (Other : Type) : Type := {
  AlertmanagerConfig : PostableApiAlertingConfig Other;
  UserConfig_other : Other;
}.
Arguments AlertmanagerConfig {Other} _.
Arguments UserConfig_other {Other} _.

End definitions.

(** ** package notifier *)

(** [autogenRuleStore]: the rules of an organisation with their settings.
    The returned Go map is given by its entries in the order in which
    [range] visits them. *)
Record autogenRuleStore : Type := {
  ListNotificationSettings :
    Z → list (models.AlertRuleKey * list models.NotificationSettings) * option error;
}.

(** [notificaitonSettingsValidator]: [None] is Go's [nil] error. *)
Record notificaitonSettingsValidator : Type := {
  Validate : models.NotificationSettings → option error;
}.

(** One call of [logger.Error], with the rule key as its context. *)
Record logEntry : Type := {
  log_msg : string;
  log_ruleKey : models.AlertRuleKey;
  log_error : error;
}.

Record autogeneratedRoute : Type := {
  Route : option definitions.Route;
  Fingerprint : data.Fingerprint;
}.

(** [autogeneratedRoute{}] *)
Definition autogeneratedRoute_zero : autogeneratedRoute :=
  {| Route := None; Fingerprint := 0 |}.

(** [maps.Keys] returns the keys of a map in an indeterminate order: any
    list that enumerates the keys once each. *)
Definition maps_Keys {V : Type} (m : gmap data.Fingerprint V) (keys : list data.Fingerprint) : Prop :=
  keys ≡ₚ (map_to_list m).*1.

(** [settings[fingerprint]]: absent keys read as the zero value. *)
Definition settings_at (settings : gmap data.Fingerprint models.NotificationSettings)
    (fingerprint : data.Fingerprint) : models.NotificationSettings :=
  default models.NotificationSettings_zero (settings !! fingerprint).

(** The state the loop of [generateRouteFromSettings] works on.  The map
    [receiverRoutes] holds pointers to nodes that are also elements of
    [autoGenRoot.Routes]; such a pointer is the position of the node in that
    slice, so that a write through it is seen from the root. *)
Record loopState : Type := {
  autoGenRoot : definitions.Route;
  receiverRoutes : gmap string nat;
}.

(** [parent.Routes = append(parent.Routes, child)] *)
Definition append_Routes (parent child : definitions.Route) : definitions.Route :=
  definitions.set_Routes parent (definitions.Routes parent ++ [child]).

Section generate.
Context `{!data.Decls, !labels.Decls, !model.Decls, !models.Decls}.

(** The node of layer 2 (lines 93-100). *)
Definition receiverRoute_new (s : models.NotificationSettings)
    (contactMatcher : labels.Matcher) : definitions.Route :=
  {| definitions.Receiver := models.Receiver s;
     definitions.ObjectMatchers := [contactMatcher];
     definitions.Continue := true;
     definitions.Routes := [];
     definitions.GroupByStr := [models.FolderTitleLabel; model.AlertNameLabel];
     definitions.MuteTimeIntervals := [];
     definitions.GroupWait := None;
     definitions.GroupInterval := None;
     definitions.RepeatInterval := None |}.

(** The node of layer 3 (lines 113-123). *)
Definition settingRoute_new (s : models.NotificationSettings)
    (settingMatcher : labels.Matcher) : definitions.Route :=
  {| definitions.Receiver := models.Receiver s;
     definitions.ObjectMatchers := [settingMatcher];
     definitions.Continue := false;
     definitions.Routes := [];
     definitions.GroupByStr := models.GroupBy s;
     definitions.MuteTimeIntervals := models.MuteTimeIntervals s;
     definitions.GroupWait := models.GroupWait s;
     definitions.GroupInterval := models.GroupInterval s;
     definitions.RepeatInterval := models.RepeatInterval s |}.

(** Lines 87-103: look the receiver's node up, or create and register it. *)
Definition lookup_or_create (s : models.NotificationSettings) (st : loopState)
    : result (nat * loopState) :=
  match receiverRoutes st !! models.Receiver s with
  | Some receiverRoute => Ok (receiverRoute, st)
  | None =>
      contactMatcher ← labels.NewMatcher labels.MatchEqual
        models.AutogeneratedRouteReceiverNameLabel (models.Receiver s);
      let receiverRoute := length (definitions.Routes (autoGenRoot st)) in
      Ok (receiverRoute,
          {| autoGenRoot := append_Routes (autoGenRoot st) (receiverRoute_new s contactMatcher);
             receiverRoutes := <[models.Receiver s := receiverRoute]> (receiverRoutes st) |})
  end.

(** One iteration of the loop over the sorted keys (lines 85-124). *)
Definition loop_body (settings : gmap data.Fingerprint models.NotificationSettings)
    (st : loopState) (fingerprint : data.Fingerprint) : result loopState :=
  let s := settings_at settings fingerprint in
  '(receiverRoute, st) ← lookup_or_create s st;
  if models.IsAllDefault s then Ok st
  else
    settingMatcher ← labels.NewMatcher labels.MatchEqual
      models.AutogeneratedRouteSettingsHashLabel
      (data.Fingerprint_String (models.Fingerprint s));
    Ok {| autoGenRoot :=
            definitions.set_Routes (autoGenRoot st)
              (alter (λ r, append_Routes r (settingRoute_new s settingMatcher))
                 receiverRoute (definitions.Routes (autoGenRoot st)));
          receiverRoutes := receiverRoutes st |}.

(** The loop; an error of an iteration ends it. *)
Fixpoint loop (settings : gmap data.Fingerprint models.NotificationSettings)
    (keys : list data.Fingerprint) (st : loopState) : result loopState :=
  match keys with
  | [] => Ok st
  | fingerprint :: keys => st ← loop_body settings st fingerprint; loop settings keys st
  end.

(** [generateRouteFromSettings] (lines 68-130); [mapsKeys] is what
    [maps.Keys(settings)] returned. *)
Definition generateRouteFromSettings (defaultReceiver : string)
    (settings : gmap data.Fingerprint models.NotificationSettings)
    (mapsKeys : list data.Fingerprint) : autogeneratedRoute * option error :=
  let keys := slices_Sort mapsKeys in
  match labels.NewMatcher labels.MatchEqual models.AutogeneratedRouteLabel "true" with
  | Err err => (autogeneratedRoute_zero, Some err)
  | Ok rootMatcher =>
      let root :=
        {| definitions.Receiver := defaultReceiver;
           definitions.ObjectMatchers := [rootMatcher];
           definitions.Continue := false;
           definitions.Routes := [];
           definitions.GroupByStr := [];
           definitions.MuteTimeIntervals := [];
           definitions.GroupWait := None;
           definitions.GroupInterval := None;
           definitions.RepeatInterval := None |} in
      match loop settings keys {| autoGenRoot := root; receiverRoutes := ∅ |} with
      | Err err => (autogeneratedRoute_zero, Some err)
      | Ok st =>
          ({| Route := Some (autoGenRoot st);
              Fingerprint := calculateAutogeneratedRouteHash keys |}, None)
      end
  end.

(** Lines 34-46: one settings object of one rule. *)
Definition collect_setting (validator : notificaitonSettingsValidator)
    (ruleKey : models.AlertRuleKey)
    (acc : gmap data.Fingerprint models.NotificationSettings * list logEntry)
    (setting : models.NotificationSettings)
    : gmap data.Fingerprint models.NotificationSettings * list logEntry :=
  let '(notificationSettings, log) := acc in
  match Validate validator setting with
  | Some err =>
      (notificationSettings,
       log ++ [{| log_msg := "Rule notification settings are invalid. Skipping";
                  log_ruleKey := ruleKey; log_error := err |}])
  | None =>
      let fp := models.Fingerprint setting in
      match notificationSettings !! fp with
      | Some _ => (notificationSettings, log)
      | None => (<[fp := setting]> notificationSettings, log)
      end
  end.

(** Lines 32-47: the two nested loops over the listed rules. *)
Definition collect (validator : notificaitonSettingsValidator)
    (settings : list (models.AlertRuleKey * list models.NotificationSettings))
    : gmap data.Fingerprint models.NotificationSettings * list logEntry :=
  foldl (λ acc rule, foldl (collect_setting validator rule.1) acc rule.2) (∅, []) settings.

(** [newAutogeneratedRoute] (lines 26-57).  [mapsKeys] is the order in which
    [maps.Keys] enumerates a map; the second component is what was logged. *)
Definition newAutogeneratedRoute (orgId : Z) (store : autogenRuleStore)
    (defaultReceiver : string) (validator : notificaitonSettingsValidator)
    (mapsKeys : gmap data.Fingerprint models.NotificationSettings → list data.Fingerprint)
    : (autogeneratedRoute * option error) * list logEntry :=
  match ListNotificationSettings store orgId with
  | (_, Some err) =>
      ((autogeneratedRoute_zero, Some (fmt_Errorf_w "failed to list alert rules: %w" err)), [])
  | (settings, None) =>
      let '(notificationSettings, log) := collect validator settings in
      if decide (size notificationSettings = 0%nat) then ((autogeneratedRoute_zero, None), log)
      else
        match generateRouteFromSettings defaultReceiver notificationSettings
                (mapsKeys notificationSettings) with
        | (_, Some err) =>
            ((autogeneratedRoute_zero,
              Some (fmt_Errorf_w "failed to create autogenerated route: %w" err)), log)
        | (newAutogenRoute, None) => ((newAutogenRoute, None), log)
        end
  end.

End generate.

(** The error of line 150. *)
Definition no_root_error : error :=
  errors_New "invalid Alertmanager configuration. The root route does not exist".

(** [AddToConfig] (lines 148-159) on values.  The receiver [ar] may be
    [nil]; the call writes through [ar] and through [config], so both are
    returned.  The generated route is taken to be a node of its own, as the
    builder returns it: when [ar.Route] is already a node of [config] the
    write of line 156 reaches that node too, which values cannot show; the
    merge on pointers, [AddToConfig_mem] below, covers that case, and the
    two agree when the node is not shared. *)
Definition AddToConfig {Other : Type} (ar : option autogeneratedRoute)
    (config : definitions.PostableUserConfig Other)
    : option autogeneratedRoute * definitions.PostableUserConfig Other * option error :=
  match definitions.Config_Route (definitions.AlertmanagerConfig config) with
  | None =>
      (ar, config, Some no_root_error)
  | Some root =>
      match ar with
      | None => (ar, config, None)
      | Some a =>
          match Route a with
          | None => (ar, config, None)
          | Some generated =>
              let generated := definitions.set_Receiver generated (definitions.Receiver root) in
              let root := definitions.set_Routes root (generated :: definitions.Routes root) in
              (Some {| Route := Some generated; Fingerprint := Fingerprint a |},
               {| definitions.AlertmanagerConfig :=
                    {| definitions.Config_Route := Some root;
                       definitions.Config_other :=
                         definitions.Config_other (definitions.AlertmanagerConfig config) |};
                  definitions.UserConfig_other := definitions.UserConfig_other config |},
               None)
          end
      end
  end.

(** ** A concrete instance of the outside declarations

    Used to run the definitions on examples; no general statement below
    depends on it. *)
Module sample.

(** The bytes of a string. *)
Definition bytes (s : string) : list N := Byte.to_N <$> String.list_byte_of_string s.

(** A string followed by the separator byte. *)
Definition writeString (sum : N) (s : string) : N :=
  fnv.Write (fnv.Write sum (bytes s)) [255].

(** A duration (reduced to 64 bits) or nothing, followed by the separator. *)
Definition writeDuration (sum : N) (d : option Z) : N :=
  match d with
  | None => fnv.Write sum [255]
  | Some d => fnv.Write (fnv.Write sum (binary.PutUint64 (Z.to_N (d mod 2 ^ 64)))) [255]
  end.

(** An FNV-1 digest of the receiver and of every optional field. *)
Definition Fingerprint (s : models.NotificationSettings) : data.Fingerprint :=
  let sum := writeString fnv.New64 (models.Receiver s) in
  let sum := foldl writeString sum (models.GroupBy s) in
  let sum := writeDuration sum (models.GroupWait s) in
  let sum := writeDuration sum (models.RepeatInterval s) in
  let sum := writeDuration sum (models.GroupInterval s) in
  let sum := foldl writeString sum (models.MuteTimeIntervals s) in
  fnv.Sum64 sum.

(** Equality matchers are built as they are; regular expressions are not
    compiled here. *)
Definition NewMatcher (t : labels.MatchType) (n v : string) : result labels.Matcher :=
  match t with
  | labels.MatchEqual | labels.MatchNotEqual =>
      Ok {| labels.Type_ := t; labels.Name := n; labels.Value := v |}
  | labels.MatchRegexp | labels.MatchNotRegexp =>
      Err (errors_New "regular expressions are not part of this instance")
  end.

#[export] Instance data_decls : data.Decls :=
  {| data.Fingerprint_String := λ fp, pretty fp |}.

#[export] Instance labels_decls : labels.Decls :=
  {| labels.NewMatcher := NewMatcher |}.

#[export] Instance model_decls : model.Decls :=
  {| model.AlertNameLabel := "alertname" |}.

#[export] Instance models_decls : models.Decls :=
  {| models.Fingerprint := Fingerprint;
     models.AutogeneratedRouteLabel := "__grafana_autogenerated__";
     models.AutogeneratedRouteReceiverNameLabel := "__grafana_receiver__";
     models.AutogeneratedRouteSettingsHashLabel := "__grafana_route_settings_hash__";
     models.FolderTitleLabel := "grafana_folder" |}.

(** [{receiver: "slack"}], everything else at its default. *)
Definition slack : models.NotificationSettings :=
  {| models.Receiver := "slack"; models.GroupBy := []; models.GroupWait := None;
     models.GroupInterval := None; models.RepeatInterval := None;
     models.MuteTimeIntervals := [] |}.

(** [{receiver: "slack", groupWait: 30s}], durations in nanoseconds. *)
Definition slack30 : models.NotificationSettings :=
  {| models.Receiver := "slack"; models.GroupBy := []; models.GroupWait := Some 30000000000%Z;
     models.GroupInterval := None; models.RepeatInterval := None;
     models.MuteTimeIntervals := [] |}.

(** [{receiver: "email"}] *)
Definition email : models.NotificationSettings :=
  {| models.Receiver := "email"; models.GroupBy := []; models.GroupWait := None;
     models.GroupInterval := None; models.RepeatInterval := None;
     models.MuteTimeIntervals := [] |}.

(** A validator that rejects settings without a receiver. *)
Definition validator : notificaitonSettingsValidator :=
  {| Validate := λ s,
       if decide (models.Receiver s = "") then Some (errors_New "receiver must be specified")
       else None |}.

Definition rule (uid : string) : models.AlertRuleKey :=
  {| models.OrgID := 1; models.UID := uid |}.

(** A store with two rules that share one settings object. *)
Definition store : autogenRuleStore :=
  {| ListNotificationSettings := λ _,
       ([(rule "a", [slack30; email]); (rule "b", [slack30])], None) |}.

(** Settings without a receiver, which [validator] rejects. *)
Definition nobody : models.NotificationSettings :=
  {| models.Receiver := ""; models.GroupBy := ["team"]; models.GroupWait := None;
     models.GroupInterval := None; models.RepeatInterval := None;
     models.MuteTimeIntervals := [] |}.

(** A store with copies of one settings object only. *)
Definition store_copies : autogenRuleStore :=
  {| ListNotificationSettings := λ _,
       ([(rule "a", [slack30; slack30]); (rule "b", [slack30])], None) |}.

(** A store with a rejected object among accepted ones. *)
Definition store_mixed : autogenRuleStore :=
  {| ListNotificationSettings := λ _,
       ([(rule "a", [slack30; nobody]); (rule "b", [email])], None) |}.

(** A store with rejected objects only. *)
Definition store_rejected : autogenRuleStore :=
  {| ListNotificationSettings := λ _, ([(rule "a", [nobody]); (rule "b", [])], None) |}.

(** [maps.Keys] enumerating in the order of the map's own listing. *)
Definition mapsKeys (m : gmap data.Fingerprint models.NotificationSettings)
    : list data.Fingerprint :=
  (map_to_list m).*1.

(** A store whose query fails. *)
Definition store_down : autogenRuleStore :=
  {| ListNotificationSettings := λ _, ([], Some (errors_New "database is locked")) |}.

(** The map of [slack30] and [email] under their fingerprints. *)
Definition settings : gmap data.Fingerprint models.NotificationSettings :=
  <[Fingerprint slack30 := slack30]> (<[Fingerprint email := email]> ∅).

(** A user-created configuration: a root route with two children. *)
Definition user_route (receiver : string) (routes : list definitions.Route) : definitions.Route :=
  definitions.mkRoute receiver [] false routes [] [] None None None.

Definition config : definitions.PostableUserConfig unit :=
  {| definitions.AlertmanagerConfig :=
       {| definitions.Config_Route :=
            Some (user_route "default" [user_route "pager" []; user_route "mail" []]);
          definitions.Config_other := () |};
     definitions.UserConfig_other := () |}.

Definition config_no_root : definitions.PostableUserConfig unit :=
  {| definitions.AlertmanagerConfig :=
       {| definitions.Config_Route := None; definitions.Config_other := () |};
     definitions.UserConfig_other := () |}.

End sample.


(** ** Vocabulary of the statements *)

Section vocabulary.
Context `{!data.Decls, !labels.Decls, !model.Decls, !models.Decls}.

(** The nodes of layer 3 of a generated tree, branch after branch. *)
Definition thirdTier (root : definitions.Route) : list definitions.Route :=
  concat (definitions.Routes <$> definitions.Routes root).

(** The receivers of the nodes of layer 2, in their order. *)
Definition receivers (root : definitions.Route) : list string :=
  definitions.Receiver <$> definitions.Routes root.

(** [l] is the node of layer 3 of an entry of [settings] that is not all
    default. *)
Definition settingRoute_of (settings : gmap data.Fingerprint models.NotificationSettings)
    (l : definitions.Route) : Prop :=
  ∃ fp s settingMatcher,
    settings !! fp = Some s ∧ models.IsAllDefault s = false ∧
    l = settingRoute_new s settingMatcher.

(** What holds of every node of layer 2 while the tree is built. *)
Definition receiverRoute_ok (settings : gmap data.Fingerprint models.NotificationSettings)
    (b : definitions.Route) : Prop :=
  definitions.Continue b = true ∧ Forall (settingRoute_of settings) (definitions.Routes b).

(** The invariant of the loop: the nodes of layer 2 are well formed, and
    every pointer of [receiverRoutes] leads to the node of its receiver. *)
Definition loop_inv (settings : gmap data.Fingerprint models.NotificationSettings)
    (st : loopState) : Prop :=
  Forall (receiverRoute_ok settings) (definitions.Routes (autoGenRoot st)) ∧
  ∀ name p, receiverRoutes st !! name = Some p →
    ∃ b, definitions.Routes (autoGenRoot st) !! p = Some b ∧ definitions.Receiver b = name.

(** The number of entries of a map that are not all default. *)
Definition count_not_default (settings : gmap data.Fingerprint models.NotificationSettings) : nat :=
  length (filter (λ kv, models.IsAllDefault kv.2 = false) (map_to_list settings)).

(** The listed settings without the objects that the validator rejects. *)
Definition valid_only (validator : notificaitonSettingsValidator)
    (settings : list (models.AlertRuleKey * list models.NotificationSettings))
    : list (models.AlertRuleKey * list models.NotificationSettings) :=
  (λ rule, (rule.1, filter (λ s, Validate validator s = None) rule.2)) <$> settings.

(** The objects that the validator accepts, in the order of the listing. *)
Definition valid_objects (validator : notificaitonSettingsValidator)
    (settings : list (models.AlertRuleKey * list models.NotificationSettings))
    : list models.NotificationSettings :=
  rule ← settings; filter (λ s, Validate validator s = None) rule.2.

(** Lines 40-45 on the map alone: an object is kept unless its fingerprint
    is taken. *)
Definition keep_first (notificationSettings : gmap data.Fingerprint models.NotificationSettings)
    (setting : models.NotificationSettings)
    : gmap data.Fingerprint models.NotificationSettings :=
  match notificationSettings !! models.Fingerprint setting with
  | Some _ => notificationSettings
  | None => <[models.Fingerprint setting := setting]> notificationSettings
  end.

(** The log entry of line 37. *)
Definition skipped (ruleKey : models.AlertRuleKey) (err : error) : logEntry :=
  {| log_msg := "Rule notification settings are invalid. Skipping";
     log_ruleKey := ruleKey; log_error := err |}.

(** The objects of one rule that the validator rejects, with its errors. *)
Definition rejected_of (validator : notificaitonSettingsValidator)
    (ruleSettings : list models.NotificationSettings) : list error :=
  omap (Validate validator) ruleSettings.

(** The objects that the validator rejects, with their rules, in the order
    of the listing. *)
Definition rejected (validator : notificaitonSettingsValidator)
    (settings : list (models.AlertRuleKey * list models.NotificationSettings))
    : list logEntry :=
  rule ← settings; skipped rule.1 <$> rejected_of validator rule.2.

End vocabulary.

(** A validator that accepts everything. *)
Definition accept_all : notificaitonSettingsValidator := {| Validate := λ _, None |}.

(** ** Further vocabulary: the shape of the tree *)

Section tree_vocabulary.
Context `{!data.Decls, !labels.Decls, !model.Decls, !models.Decls}.

(** The index and layer 2 agree: a receiver is registered under a pointer
    exactly when the node behind the pointer is the node of that receiver. *)
Definition index_inv (st : loopState) : Prop :=
  ∀ name p,
    receiverRoutes st !! name = Some p ↔
    ∃ b, definitions.Routes (autoGenRoot st) !! p = Some b ∧ definitions.Receiver b = name.

(** The names of a list in the order of their first occurrence. *)
Definition first_seen (names : list string) : list string :=
  foldl (λ seen name, if decide (name ∈ seen) then seen else seen ++ [name]) [] names.

(** The receivers of the settings under the given keys, key by key. *)
Definition receivers_of (settings : gmap data.Fingerprint models.NotificationSettings)
    (keys : list data.Fingerprint) : list string :=
  (λ fp, models.Receiver (settings_at settings fp)) <$> keys.

(** [l] is the node of layer 3 of the settings [s], as lines 109-123 build
    it: its matcher is the one for the hash of [s]. *)
Definition settingRoute_for (s : models.NotificationSettings) (l : definitions.Route) : Prop :=
  ∃ settingMatcher,
    labels.NewMatcher labels.MatchEqual models.AutogeneratedRouteSettingsHashLabel
      (data.Fingerprint_String (models.Fingerprint s)) = Ok settingMatcher ∧
    l = settingRoute_new s settingMatcher.

(** [b] is the node of layer 2 of its receiver, as lines 89-100 build it,
    and its children are nodes of layer 3 of settings of that receiver that
    are not all default, found under keys of [done]. *)
Definition receiverRoute_for (settings : gmap data.Fingerprint models.NotificationSettings)
    (done : list data.Fingerprint) (b : definitions.Route) : Prop :=
  (∃ contactMatcher,
     labels.NewMatcher labels.MatchEqual models.AutogeneratedRouteReceiverNameLabel
       (definitions.Receiver b) = Ok contactMatcher ∧
     definitions.ObjectMatchers b = [contactMatcher]) ∧
  definitions.Continue b = true ∧
  definitions.GroupByStr b = [models.FolderTitleLabel; model.AlertNameLabel] ∧
  definitions.MuteTimeIntervals b = [] ∧
  definitions.GroupWait b = None ∧
  definitions.GroupInterval b = None ∧
  definitions.RepeatInterval b = None ∧
  Forall (λ l, ∃ fp, fp ∈ done ∧
                 models.IsAllDefault (settings_at settings fp) = false ∧
                 models.Receiver (settings_at settings fp) = definitions.Receiver b ∧
                 settingRoute_for (settings_at settings fp) l)
    (definitions.Routes b).

(** Every key of [done] whose settings are not all default has its node of
    layer 3, under the node of its receiver. *)
Definition leaves_complete (settings : gmap data.Fingerprint models.NotificationSettings)
    (done : list data.Fingerprint) (rs : list definitions.Route) : Prop :=
  ∀ fp, fp ∈ done → models.IsAllDefault (settings_at settings fp) = false →
    Exists (λ b, definitions.Receiver b = models.Receiver (settings_at settings fp) ∧
                 ∃ l, l ∈ definitions.Routes b ∧ settingRoute_for (settings_at settings fp) l) rs.

(** All that the loop keeps, after the keys [done]. *)
Definition tree_inv (settings : gmap data.Fingerprint models.NotificationSettings)
    (done : list data.Fingerprint) (st : loopState) : Prop :=
  index_inv st ∧
  receivers (autoGenRoot st) = first_seen (receivers_of settings done) ∧
  Forall (receiverRoute_for settings done) (definitions.Routes (autoGenRoot st)) ∧
  leaves_complete settings done (definitions.Routes (autoGenRoot st)).

(** The state with the receiver of the root replaced. *)
Definition with_root_Receiver (x : string) (st : loopState) : loopState :=
  {| autoGenRoot := definitions.set_Receiver (autoGenRoot st) x;
     receiverRoutes := receiverRoutes st |}.

End tree_vocabulary.

(** ** The merge on pointers

    [AddToConfig] above works on values; the Go code works on pointers, and
    [ar.Route] may be a node that the configuration already holds (after an
    earlier merge).  Here routes are nodes in a memory, and children are
    pointers to nodes. *)
Module mem.

(** [definitions.Route] in memory. *)
Record Route : Type := mkRoute {
  Receiver : string;
  ObjectMatchers : list labels.Matcher;
  Continue : bool;
  Routes : list nat;
  GroupByStr : list string;
  MuteTimeIntervals : list string;
  GroupWait : option Z;
  GroupInterval : option Z;
  RepeatInterval : option Z;
}.

(** [r.Receiver = x] *)
Definition set_Receiver (r : Route) (x : string) : Route :=
  mkRoute x (ObjectMatchers r) (Continue r) (Routes r) (GroupByStr r)
    (MuteTimeIntervals r) (GroupWait r) (GroupInterval r) (RepeatInterval r).

(** [r.Routes = rs] *)
Definition set_Routes (r : Route) (rs : list nat) : Route :=
  mkRoute (Receiver r) (ObjectMatchers r) (Continue r) rs (GroupByStr r)
    (MuteTimeIntervals r) (GroupWait r) (GroupInterval r) (RepeatInterval r).

End mem.

(** [AddToConfig] (lines 148-159) on a memory [h].  [ar] is [None] for a
    [nil] receiver and [Some None] for [ar.Route == nil]; [configRoute] is
    [config.AlertmanagerConfig.Route].  Line 156 reads the receiver of the
    root and writes it through [ar.Route]; line 157 reads the children of
    the root and writes the new slice.  A pointer of Go that is not [nil]
    points to a node; [alter] leaves the memory alone for a pointer without
    a node. *)
Definition AddToConfig_mem (h : gmap nat mem.Route) (ar : option (option nat))
    (configRoute : option nat) : gmap nat mem.Route * option error :=
  match configRoute with
  | None => (h, Some no_root_error)
  | Some root =>
      match ar with
      | None | Some None => (h, None)
      | Some (Some generated) =>
          let h :=
            match h !! root with
            | Some r => alter (λ g, mem.set_Receiver g (mem.Receiver r)) generated h
            | None => h
            end in
          let h := alter (λ r, mem.set_Routes r (generated :: mem.Routes r)) root h in
          (h, None)
      end
  end.

(** The tree of values behind a pointer, read down to the given depth;
    [None] when the tree is deeper or a pointer has no node. *)
Fixpoint load (h : gmap nat mem.Route) (depth : nat) (p : nat) : option definitions.Route :=
  match depth with
  | O => None
  | S depth =>
      r ← h !! p;
      routes ← mapM (load h depth) (mem.Routes r);
      Some (definitions.mkRoute (mem.Receiver r) (mem.ObjectMatchers r) (mem.Continue r) routes
              (mem.GroupByStr r) (mem.MuteTimeIntervals r) (mem.GroupWait r)
              (mem.GroupInterval r) (mem.RepeatInterval r))
  end.

(** The pointers that [load] follows. *)
Fixpoint visited (h : gmap nat mem.Route) (depth : nat) (p : nat) : list nat :=
  match depth with
  | O => []
  | S depth =>
      p :: match h !! p with
           | Some r => c ← mem.Routes r; visited h depth c
           | None => []
           end
  end.

(** A memory for examples: the root 0 of receiver [other] has the children
    1 and 2; the node 1 was merged earlier, under another receiver; the node
    3 is a generated route that was not merged yet. *)
Module sample_mem.

Definition node (receiver : string) (routes : list nat) : mem.Route :=
  mem.mkRoute receiver [] false routes [] [] None None None.

Definition memory : gmap nat mem.Route :=
  <[0%nat := node "other" [1%nat; 2%nat]]>
    (<[1%nat := node "default" []]>
       (<[2%nat := node "pager" []]>
          (<[3%nat := node "" [4%nat]]> (<[4%nat := node "slack" []]> ∅)))).

End sample_mem.

(** * Properties *)

(** ** Sorting *)

Lemma slices_Sort_Permutation (keys : list data.Fingerprint) : slices_Sort keys ≡ₚ keys.
Proof. apply merge_sort_Permutation. Qed.

Lemma slices_Sort_Sorted (keys : list data.Fingerprint) : Sorted N.le (slices_Sort keys).
Proof. apply (Sorted_merge_sort N.le). Qed.

(** Two enumerations of the same keys are sorted into the same slice. *)
Lemma slices_Sort_proper (keys1 keys2 : list data.Fingerprint) :
  keys1 ≡ₚ keys2 → slices_Sort keys1 = slices_Sort keys2.
Proof.
  intros Hperm. apply (Sorted_unique N.le); try apply slices_Sort_Sorted.
  by rewrite !slices_Sort_Permutation.
Qed.

Example slices_Sort_3 : slices_Sort [3; 1; 2] = [1; 2; 3].
Proof. reflexivity. Qed.

(** ** The hash of the route *)

(** FNV-1 of the one-byte input [a] (97) is 0xaf63bd4c8601b7be. *)
Example fnv_Write_a : fnv.Sum64 (fnv.Write fnv.New64 [97]) = 12638153115695167422.
Proof. vm_compute. reflexivity. Qed.

Example PutUint64_258 : binary.PutUint64 258 = [2; 1; 0; 0; 0; 0; 0; 0].
Proof. reflexivity. Qed.

Example hash_0_1 : calculateAutogeneratedRouteHash [0; 1] = 8440558576225081630.
Proof. vm_compute. reflexivity. Qed.

Example hash_1_0 : calculateAutogeneratedRouteHash [1; 0] = 629055259422083788.
Proof. vm_compute. reflexivity. Qed.

(** C2, as stated, fails: [calculateAutogeneratedRouteHash] does not sort
    its argument, and the fingerprints 0 and 1 hash differently in the two
    orders. *)
Lemma calculateAutogeneratedRouteHash_keeps_order :
  ¬ (∀ a b : data.Fingerprint, a ≠ b →
       calculateAutogeneratedRouteHash [a; b] = calculateAutogeneratedRouteHash [b; a]).
Proof.
  intros Hswap. assert (0 ≠ 1) as Hne by lia.
  pose proof (Hswap 0 1 Hne) as Heq. vm_compute in Heq. discriminate Heq.
Qed.

(** ** Merging into the user-created configuration *)

Lemma AddToConfig_no_root {Other : Type} (ar : option autogeneratedRoute)
    (config : definitions.PostableUserConfig Other) :
  definitions.Config_Route (definitions.AlertmanagerConfig config) = None →
  AddToConfig ar config = (ar, config, Some no_root_error).
Proof. intros Hroot. unfold AddToConfig. by rewrite Hroot. Qed.

(** C3: a generated route that is not [nil], merged into a configuration
    whose root has M children, gives no error and a root with M+1 children;
    the first child is the generated route, whose receiver is now the
    receiver of the root, and the M children follow it unchanged. *)
Theorem AddToConfig_prepends {Other : Type} (a : autogeneratedRoute)
    (generated root : definitions.Route) (M : nat)
    (config : definitions.PostableUserConfig Other) :
  Route a = Some generated →
  definitions.Config_Route (definitions.AlertmanagerConfig config) = Some root →
  length (definitions.Routes root) = M →
  ∃ generated' root' config',
    AddToConfig (Some a) config =
      (Some {| Route := Some generated'; Fingerprint := Fingerprint a |}, config', None) ∧
    definitions.Config_Route (definitions.AlertmanagerConfig config') = Some root' ∧
    length (definitions.Routes root') = (M + 1)%nat ∧
    definitions.Routes root' = generated' :: definitions.Routes root ∧
    generated' = definitions.set_Receiver generated (definitions.Receiver root) ∧
    definitions.Receiver generated' = definitions.Receiver root ∧
    definitions.Receiver root' = definitions.Receiver root.
Proof.
  intros Hgen Hroot HM. unfold AddToConfig. rewrite Hroot, Hgen.
  eexists _, _, _. split; [reflexivity|]. simpl.
  repeat split. simpl. lia.
Qed.

Lemma AddToConfig_prepends_witness :
  ∃ generated' root' config',
    AddToConfig
      (Some {| Route := Some (sample.user_route "" [sample.user_route "slack" []]);
               Fingerprint := 7 |}) sample.config =
      (Some {| Route := Some generated'; Fingerprint := 7 |}, config', None) ∧
    definitions.Config_Route (definitions.AlertmanagerConfig config') = Some root' ∧
    length (definitions.Routes root') = 3%nat ∧
    definitions.Routes root' =
      [generated'; sample.user_route "pager" []; sample.user_route "mail" []] ∧
    definitions.Receiver generated' = "default".
Proof.
  destruct (AddToConfig_prepends
    {| Route := Some (sample.user_route "" [sample.user_route "slack" []]); Fingerprint := 7 |}
    (sample.user_route "" [sample.user_route "slack" []])
    (sample.user_route "default" [sample.user_route "pager" []; sample.user_route "mail" []])
    2 sample.config eq_refl eq_refl eq_refl)
    as (generated' & root' & config' & Hcall & Hroot & Hlen & Hroutes & _ & Hrecv & _).
  exists generated', root', config'. repeat split; assumption.
Defined.

(** C8: without a root route the merge fails and nothing is written; with a
    root route and no generated route the merge succeeds and nothing is
    written. *)
Theorem AddToConfig_nil {Other : Type} (ar : option autogeneratedRoute)
    (config : definitions.PostableUserConfig Other) :
  (definitions.Config_Route (definitions.AlertmanagerConfig config) = None →
   AddToConfig ar config = (ar, config, Some no_root_error)) ∧
  (is_Some (definitions.Config_Route (definitions.AlertmanagerConfig config)) →
   ar ≫= Route = None →
   AddToConfig ar config = (ar, config, None)).
Proof.
  split; [apply AddToConfig_no_root|].
  intros [root Hroot] Hnil. unfold AddToConfig. rewrite Hroot.
  destruct ar as [a|]; [|done]. simpl in Hnil. by rewrite Hnil.
Qed.

Lemma AddToConfig_nil_witness :
  AddToConfig (Some autogeneratedRoute_zero) sample.config_no_root =
    (Some autogeneratedRoute_zero, sample.config_no_root, Some no_root_error) ∧
  AddToConfig (Some autogeneratedRoute_zero) sample.config =
    (Some autogeneratedRoute_zero, sample.config, None).
Proof.
  split.
  - apply (proj1 (AddToConfig_nil (Some autogeneratedRoute_zero) sample.config_no_root)).
    reflexivity.
  - apply (proj2 (AddToConfig_nil (Some autogeneratedRoute_zero) sample.config)).
    + eexists. reflexivity.
    + reflexivity.
Defined.

(** C10: the check of the root route comes first: without a root route the
    error is returned for a [nil] receiver, for a generated route that is
    [nil] and for any other one. *)
Theorem AddToConfig_root_checked_first {Other : Type}
    (config : definitions.PostableUserConfig Other) :
  definitions.Config_Route (definitions.AlertmanagerConfig config) = None →
  AddToConfig None config = (None, config, Some no_root_error) ∧
  (∀ a, Route a = None → AddToConfig (Some a) config = (Some a, config, Some no_root_error)) ∧
  (∀ ar, AddToConfig ar config = (ar, config, Some no_root_error)).
Proof.
  intros Hroot. repeat split; intros; by apply AddToConfig_no_root.
Qed.

Lemma AddToConfig_root_checked_first_witness :
  AddToConfig None sample.config_no_root = (None, sample.config_no_root, Some no_root_error) ∧
  AddToConfig (Some autogeneratedRoute_zero) sample.config_no_root =
    (Some autogeneratedRoute_zero, sample.config_no_root, Some no_root_error).
Proof.
  destruct (AddToConfig_root_checked_first sample.config_no_root eq_refl) as (Hnil & Hempty & _).
  split; [exact Hnil|]. apply Hempty. reflexivity.
Defined.

(** ** The route builder *)

Section generate_facts.
Context `{!data.Decls, !labels.Decls, !model.Decls, !models.Decls}.

Implicit Types (settings : gmap data.Fingerprint models.NotificationSettings).
Implicit Types (st : loopState) (s : models.NotificationSettings).
Implicit Types (fp fingerprint : data.Fingerprint) (keys : list data.Fingerprint).

(** Two enumerations of the keys of one map differ by their order only. *)
Lemma maps_Keys_unique settings keys1 keys2 :
  maps_Keys settings keys1 → maps_Keys settings keys2 → keys1 ≡ₚ keys2.
Proof. unfold maps_Keys. intros -> ->. done. Qed.

Lemma generateRouteFromSettings_sorted defaultReceiver settings keys1 keys2 :
  keys1 ≡ₚ keys2 →
  generateRouteFromSettings defaultReceiver settings keys1 =
  generateRouteFromSettings defaultReceiver settings keys2.
Proof.
  intros Hperm. unfold generateRouteFromSettings.
  by rewrite (slices_Sort_proper keys1 keys2 Hperm).
Qed.

(** C1: the route and the hash depend on the content of the map only: two
    maps with the same entries, whatever the order in which their keys are
    enumerated, give the same result (tree, hash and error). *)
Theorem generateRouteFromSettings_deterministic defaultReceiver settings1 settings2 keys1 keys2 :
  (∀ fp, settings1 !! fp = settings2 !! fp) →
  maps_Keys settings1 keys1 →
  maps_Keys settings2 keys2 →
  generateRouteFromSettings defaultReceiver settings1 keys1 =
  generateRouteFromSettings defaultReceiver settings2 keys2.
Proof.
  intros Hcontent Hkeys1 Hkeys2.
  assert (settings1 = settings2) as <- by by apply map_eq.
  apply generateRouteFromSettings_sorted. by eapply maps_Keys_unique.
Qed.

End generate_facts.

(** Two keys are sorted into the smaller one followed by the greater one. *)
Lemma slices_Sort_pair (a b : data.Fingerprint) :
  slices_Sort [a; b] = [N.min a b; N.max a b].
Proof.
  apply (Sorted_unique N.le); [apply slices_Sort_Sorted| |].
  - repeat constructor. lia.
  - rewrite slices_Sort_Permutation. destruct (N.le_ge_cases a b) as [Hle|Hge].
    + by rewrite N.min_l, N.max_r.
    + rewrite N.min_r, N.max_l by done. apply Permutation_swap.
Qed.

Section hash_facts.
Context `{!data.Decls, !labels.Decls, !model.Decls, !models.Decls}.

(** C2, amended: [calculateAutogeneratedRouteHash] combines the
    fingerprints in the order given; it is [generateRouteFromSettings] that
    sorts the keys before it calls it.  So for every two fingerprints [a]
    and [b] the builder returns the same for the keys enumerated as [a, b]
    and as [b, a], and the hash of a returned route is the one of the
    smaller fingerprint followed by the greater one. *)
Theorem generateRouteFromSettings_sorts_for_hash (defaultReceiver : string)
    (settings : gmap data.Fingerprint models.NotificationSettings) (a b : data.Fingerprint) :
  generateRouteFromSettings defaultReceiver settings [a; b] =
  generateRouteFromSettings defaultReceiver settings [b; a] ∧
  ∀ ar, generateRouteFromSettings defaultReceiver settings [a; b] = (ar, None) →
    Fingerprint ar = calculateAutogeneratedRouteHash [N.min a b; N.max a b].
Proof.
  split; [apply generateRouteFromSettings_sorted, Permutation_swap|].
  intros ar. unfold generateRouteFromSettings. rewrite slices_Sort_pair.
  destruct (labels.NewMatcher _ _ _) as [rootMatcher|e]; [|discriminate].
  destruct (loop _ _ _) as [st|e]; [|discriminate]. by intros [= <-].
Qed.

End hash_facts.


Section loop_facts.
Context `{!data.Decls, !labels.Decls, !model.Decls, !models.Decls}.

Implicit Types (settings : gmap data.Fingerprint models.NotificationSettings).
Implicit Types (st : loopState) (s : models.NotificationSettings).
Implicit Types (fp fingerprint : data.Fingerprint) (keys : list data.Fingerprint).
Implicit Types (b l root leaf : definitions.Route) (rs : list definitions.Route).

(** A write through a pointer to a node of layer 2 adds one node to layer 3. *)
Lemma thirdTier_alter rs (p : nat) b leaf :
  rs !! p = Some b →
  concat (definitions.Routes <$> alter (λ r, append_Routes r leaf) p rs) ≡ₚ
  leaf :: concat (definitions.Routes <$> rs).
Proof.
  revert p. induction rs as [|x rs IH]; intros [|p] Hp; simplify_eq/=.
  - rewrite <-app_assoc. simpl. by rewrite <-Permutation_middle.
  - rewrite (IH p Hp). by rewrite <-Permutation_middle.
Qed.

(** Such a write leaves the receivers of layer 2 as they are. *)
Lemma receivers_alter rs (p : nat) leaf :
  definitions.Receiver <$> alter (λ r, append_Routes r leaf) p rs = definitions.Receiver <$> rs.
Proof.
  revert p. induction rs as [|x rs IH]; intros [|p]; simpl; try done.
  f_equal. apply IH.
Qed.

(** An absent key reads as the zero value, which is all default. *)
Lemma settings_at_not_default settings fp :
  models.IsAllDefault (settings_at settings fp) = false →
  settings !! fp = Some (settings_at settings fp).
Proof.
  unfold settings_at. destruct (settings !! fp) as [s|]; simpl; [done|].
  intros Hdef. vm_compute in Hdef. discriminate Hdef.
Qed.

Lemma lookup_or_create_spec settings s st (p : nat) st1 :
  lookup_or_create s st = Ok (p, st1) →
  loop_inv settings st →
  loop_inv settings st1 ∧
  (∃ b, definitions.Routes (autoGenRoot st1) !! p = Some b ∧
        definitions.Receiver b = models.Receiver s) ∧
  definitions.Continue (autoGenRoot st1) = definitions.Continue (autoGenRoot st) ∧
  definitions.Receiver (autoGenRoot st1) = definitions.Receiver (autoGenRoot st) ∧
  thirdTier (autoGenRoot st1) = thirdTier (autoGenRoot st) ∧
  receivers (autoGenRoot st) `prefix_of` receivers (autoGenRoot st1).
Proof.
  unfold lookup_or_create. destruct (receiverRoutes st !! models.Receiver s) as [q|] eqn:Hlk.
  - intros [= <- <-] Hinv. split_and!; try done. by apply Hinv.
  - destruct (labels.NewMatcher _ _ _) as [contactMatcher|e]; simpl; [|discriminate].
    intros [= <- <-] [Hall Hptr]. split_and!; simpl; try done.
    + split; simpl.
      { apply Forall_app. split; [done|]. repeat constructor. }
      intros name q. destruct (decide (models.Receiver s = name)) as [<-|Hne].
      * rewrite lookup_insert_eq. intros [= <-].
        eexists. split; [by apply list_lookup_middle|done].
      * rewrite lookup_insert_ne by done. intros Hq.
        destruct (Hptr _ _ Hq) as (b & Hb & Hname).
        exists b. split; [|done]. by apply lookup_app_l_Some.
    + eexists. split; [by apply list_lookup_middle|done].
    + unfold thirdTier. simpl. rewrite fmap_app, concat_app. simpl. by rewrite !app_nil_r.
    + unfold receivers. simpl. rewrite fmap_app. by apply prefix_app_r.
Qed.

(** One iteration keeps the invariant and the root's own fields, makes sure
    the receiver of the settings has its node, keeps the nodes of layer 2
    in place, and adds a node to layer 3 exactly for settings that are not
    all default. *)
Lemma loop_body_spec settings st fp st' :
  loop_body settings st fp = Ok st' →
  loop_inv settings st →
  loop_inv settings st' ∧
  definitions.Continue (autoGenRoot st') = definitions.Continue (autoGenRoot st) ∧
  definitions.Receiver (autoGenRoot st') = definitions.Receiver (autoGenRoot st) ∧
  models.Receiver (settings_at settings fp) ∈ receivers (autoGenRoot st') ∧
  receivers (autoGenRoot st) `prefix_of` receivers (autoGenRoot st') ∧
  length (thirdTier (autoGenRoot st')) =
    (length (thirdTier (autoGenRoot st)) +
     if models.IsAllDefault (settings_at settings fp) then 0 else 1)%nat.
Proof.
  unfold loop_body. set (s := settings_at settings fp).
  destruct (lookup_or_create s st) as [[p st1]|e] eqn:Hcreate; simpl; [|discriminate].
  intros Hbody Hinv.
  destruct (lookup_or_create_spec settings s st p st1 Hcreate Hinv)
    as (Hinv1 & (b & Hb & Hname) & Hcont & Hrecv & Htier & Hpre).
  assert (models.Receiver s ∈ receivers (autoGenRoot st1)) as Hin.
  { unfold receivers. rewrite <-Hname. apply list_elem_of_fmap_2.
    by eapply list_elem_of_lookup_2. }
  destruct (models.IsAllDefault s) eqn:Hdef.
  - injection Hbody as <-. split_and!; try done. rewrite Htier. lia.
  - destruct (labels.NewMatcher _ _ _) as [settingMatcher|e]; simpl in Hbody; [|discriminate].
    injection Hbody as <-. destruct Hinv1 as [Hall Hptr]. simpl.
    assert (receivers
      (definitions.set_Routes (autoGenRoot st1)
         (alter (λ r, append_Routes r (settingRoute_new s settingMatcher)) p
            (definitions.Routes (autoGenRoot st1)))) = receivers (autoGenRoot st1)) as Hsame.
    { unfold receivers. simpl. apply receivers_alter. }
    split_and!; simpl; try done.
    + split; simpl.
      { apply Forall_alter; [done|]. intros b' _ [Hcontb Hleaves]. split; [done|].
        simpl. apply Forall_app. split; [done|]. constructor; [|constructor].
        exists fp, s, settingMatcher. split; [|done]. by apply settings_at_not_default. }
      intros name q Hq. destruct (Hptr _ _ Hq) as (b' & Hb' & Hname').
      destruct (decide (p = q)) as [<-|Hne].
      * rewrite list_lookup_alter_eq, Hb'. simpl. eauto.
      * rewrite list_lookup_alter_ne by done. eauto.
    + by rewrite Hsame.
    + by rewrite Hsame.
    + unfold thirdTier at 1. simpl. rewrite (thirdTier_alter _ p b _ Hb). simpl.
      fold (thirdTier (autoGenRoot st1)). rewrite Htier. lia.
Qed.

(** The whole loop, by induction on the keys. *)
Lemma loop_spec settings keys st st' :
  loop settings keys st = Ok st' →
  loop_inv settings st →
  loop_inv settings st' ∧
  definitions.Continue (autoGenRoot st') = definitions.Continue (autoGenRoot st) ∧
  definitions.Receiver (autoGenRoot st') = definitions.Receiver (autoGenRoot st) ∧
  (∀ fp, fp ∈ keys → models.Receiver (settings_at settings fp) ∈ receivers (autoGenRoot st')) ∧
  receivers (autoGenRoot st) `prefix_of` receivers (autoGenRoot st') ∧
  length (thirdTier (autoGenRoot st')) =
    (length (thirdTier (autoGenRoot st)) +
     length (filter (λ fp, models.IsAllDefault (settings_at settings fp) = false) keys))%nat.
Proof.
  revert st. induction keys as [|fp keys IH]; intros st; simpl.
  - intros [= <-] Hinv. split_and!; try done; try (simpl; lia).
    all: intros fp Hfp; by apply elem_of_nil in Hfp.
  - destruct (loop_body settings st fp) as [st1|e] eqn:Hbody; simpl; [|discriminate].
    intros Hloop Hinv.
    destruct (loop_body_spec _ _ _ _ Hbody Hinv) as (Hinv1 & Hc1 & Hr1 & Hin1 & Hpre1 & Hlen1).
    destruct (IH _ Hloop Hinv1) as (Hinv' & Hc & Hr & Hin & Hpre & Hlen).
    split_and!; try done.
    + congruence.
    + congruence.
    + intros fp' [->|Hfp']%elem_of_cons; [|by apply Hin].
      destruct Hpre as [more ->]. apply elem_of_app. by left.
    + by etrans.
    + rewrite Hlen, Hlen1. rewrite filter_cons.
      destruct (models.IsAllDefault (settings_at settings fp)); case_decide; simpl; try done; lia.
Qed.

End loop_facts.

Section tree_facts.
Context `{!data.Decls, !labels.Decls, !model.Decls, !models.Decls}.

Implicit Types (settings : gmap data.Fingerprint models.NotificationSettings).
Implicit Types (s : models.NotificationSettings).
Implicit Types (fp : data.Fingerprint) (keys mapsKeys : list data.Fingerprint).
Implicit Types (b l r : definitions.Route).

(** A call that returns a route has run the loop to its end, from the root
    of lines 78-82 and the empty index. *)
Lemma generateRouteFromSettings_inv defaultReceiver settings mapsKeys r (F : data.Fingerprint) :
  generateRouteFromSettings defaultReceiver settings mapsKeys =
    ({| Route := Some r; Fingerprint := F |}, None) →
  ∃ rootMatcher st,
    loop settings (slices_Sort mapsKeys)
      {| autoGenRoot :=
           definitions.mkRoute defaultReceiver [rootMatcher] false [] [] [] None None None;
         receiverRoutes := ∅ |} = Ok st ∧
    r = autoGenRoot st ∧
    F = calculateAutogeneratedRouteHash (slices_Sort mapsKeys).
Proof.
  unfold generateRouteFromSettings.
  destruct (labels.NewMatcher _ _ _) as [rootMatcher|e]; [|discriminate].
  destruct (loop _ _ _) as [st|e] eqn:Hloop; [|discriminate].
  intros [= <- <-]. by exists rootMatcher, st.
Qed.

Lemma loop_inv_init settings root :
  definitions.Routes root = [] → loop_inv settings {| autoGenRoot := root; receiverRoutes := ∅ |}.
Proof.
  intros Hroutes. split; simpl.
  - rewrite Hroutes. constructor.
  - intros name p Hp. by rewrite lookup_empty in Hp.
Qed.

(** The keys of an entry read back its value. *)
Lemma count_not_default_keys settings keys :
  maps_Keys settings keys →
  length (filter (λ fp, models.IsAllDefault (settings_at settings fp) = false) keys) =
  count_not_default settings.
Proof.
  unfold maps_Keys, count_not_default. intros ->.
  assert (Forall (λ kv, settings_at settings kv.1 = kv.2) (map_to_list settings)) as Hread.
  { apply Forall_forall. intros [k v] Hkv%elem_of_map_to_list. unfold settings_at. simpl.
    by rewrite Hkv. }
  induction Hread as [|[k v] kvs Hkv _ IH]; [done|].
  simpl in Hkv. rewrite fmap_cons, !filter_cons. simpl. rewrite Hkv.
  case_decide; simpl; by rewrite IH.
Qed.

(** C4: in a tree that the builder returns the root does not continue, the
    nodes of layer 2 (one per receiver) all continue, and the nodes of
    layer 3 (one per settings hash) do not. *)
Theorem generateRouteFromSettings_Continue defaultReceiver settings mapsKeys r
    (F : data.Fingerprint) :
  generateRouteFromSettings defaultReceiver settings mapsKeys =
    ({| Route := Some r; Fingerprint := F |}, None) →
  definitions.Continue r = false ∧
  ∀ b, b ∈ definitions.Routes r →
    definitions.Continue b = true ∧
    ∀ l, l ∈ definitions.Routes b → definitions.Continue l = false.
Proof.
  intros (rootMatcher & st & Hloop & -> & _)%generateRouteFromSettings_inv.
  pose proof (loop_spec _ _ _ _ Hloop) as Hspec.
  destruct Hspec as ([Hall _] & Hcont & _); [by apply loop_inv_init|].
  split; [by rewrite Hcont|].
  intros b Hb. rewrite Forall_forall in Hall. destruct (Hall b Hb) as [Hcontb Hleaves].
  split; [done|]. intros l Hl. rewrite Forall_forall in Hleaves.
  destruct (Hleaves l Hl) as (fp & s & settingMatcher & _ & _ & ->). done.
Qed.

(** C5: for an entry of the map whose settings are all default, the tree
    that the builder returns has the node of layer 2 of its receiver, every
    node of layer 3 belongs to another entry, one that is not all default,
    and layer 3 has exactly as many nodes as there are such entries. *)
Theorem generateRouteFromSettings_all_default defaultReceiver settings mapsKeys fp s r
    (F : data.Fingerprint) :
  maps_Keys settings mapsKeys →
  settings !! fp = Some s →
  models.IsAllDefault s = true →
  generateRouteFromSettings defaultReceiver settings mapsKeys =
    ({| Route := Some r; Fingerprint := F |}, None) →
  (∃ b, b ∈ definitions.Routes r ∧ definitions.Receiver b = models.Receiver s) ∧
  (∀ b l, b ∈ definitions.Routes r → l ∈ definitions.Routes b →
     ∃ fp' s' settingMatcher,
       fp' ≠ fp ∧ settings !! fp' = Some s' ∧ models.IsAllDefault s' = false ∧
       l = settingRoute_new s' settingMatcher) ∧
  length (thirdTier r) = count_not_default settings.
Proof.
  intros Hkeys Hfp Hdef (rootMatcher & st & Hloop & -> & _)%generateRouteFromSettings_inv.
  pose proof (loop_spec _ _ _ _ Hloop) as Hspec.
  destruct Hspec as ([Hall _] & _ & _ & Hin & _ & Hlen); [by apply loop_inv_init|].
  split_and!.
  - assert (fp ∈ slices_Sort mapsKeys) as Hsorted.
    { rewrite slices_Sort_Permutation, Hkeys. apply list_elem_of_fmap.
      exists (fp, s). split; [done|]. by apply elem_of_map_to_list. }
    specialize (Hin fp Hsorted). unfold settings_at in Hin. rewrite Hfp in Hin. simpl in Hin.
    apply list_elem_of_fmap in Hin as (b & Hname & Hb). eauto.
  - intros b l Hb Hl. rewrite Forall_forall in Hall. destruct (Hall b Hb) as [_ Hleaves].
    rewrite Forall_forall in Hleaves.
    destruct (Hleaves l Hl) as (fp' & s' & settingMatcher & Hfp' & Hdef' & ->).
    exists fp', s', settingMatcher. split_and!; try done.
    intros ->. congruence.
  - rewrite Hlen. simpl. apply count_not_default_keys.
    unfold maps_Keys in *. by rewrite slices_Sort_Permutation.
Qed.

End tree_facts.

(** ** Collecting the settings *)

Section collect_facts.
Context `{!data.Decls, !labels.Decls, !model.Decls, !models.Decls}.

Implicit Types (validator : notificaitonSettingsValidator).
Implicit Types (m : gmap data.Fingerprint models.NotificationSettings).
Implicit Types (s setting : models.NotificationSettings).
Implicit Types (ss ruleSettings : list models.NotificationSettings).
Implicit Types (settings : list (models.AlertRuleKey * list models.NotificationSettings)).

(** The loop over the settings of one rule. *)
Lemma collect_rule validator ruleKey ss m (log : list logEntry) :
  foldl (collect_setting validator ruleKey) (m, log) ss =
  (foldl keep_first m (filter (λ s, Validate validator s = None) ss),
   log ++ (skipped ruleKey <$> rejected_of validator ss)).
Proof.
  revert m log. induction ss as [|s ss IH]; intros m log; simpl.
  { by rewrite app_nil_r. }
  rewrite filter_cons. unfold rejected_of. simpl.
  destruct (Validate validator s) as [err|] eqn:Hs.
  - rewrite IH. rewrite decide_False by done. simpl. by rewrite <-app_assoc.
  - rewrite decide_True by done. simpl. unfold keep_first at 2.
    destruct (m !! models.Fingerprint s); by rewrite IH.
Qed.

(** The loop over the rules, from any map and log. *)
Lemma collect_rules validator settings m (log : list logEntry) :
  foldl (λ acc rule, foldl (collect_setting validator rule.1) acc rule.2) (m, log) settings =
  (foldl keep_first m (valid_objects validator settings), log ++ rejected validator settings).
Proof.
  revert m log. induction settings as [|[ruleKey ss] settings IH]; intros m log; simpl.
  { by rewrite app_nil_r. }
  rewrite collect_rule, IH. unfold valid_objects, rejected. simpl.
  by rewrite foldl_app, <-app_assoc.
Qed.

Lemma collect_eq validator settings :
  collect validator settings =
  (foldl keep_first ∅ (valid_objects validator settings), rejected validator settings).
Proof. unfold collect. by rewrite collect_rules. Qed.

Lemma elem_of_valid_objects validator settings s :
  s ∈ valid_objects validator settings ↔
  Validate validator s = None ∧
  ∃ ruleKey ss, (ruleKey, ss) ∈ settings ∧ s ∈ ss.
Proof.
  unfold valid_objects. rewrite list_elem_of_bind. split.
  - intros ([ruleKey ss] & [Hs Hvalid]%list_elem_of_filter & Hrule). eauto.
  - intros (Hvalid & ruleKey & ss & Hrule & Hs). exists (ruleKey, ss).
    split; [|done]. by apply list_elem_of_filter.
Qed.

Lemma filter_accept_all ss : filter (λ s, Validate accept_all s = None) ss = ss.
Proof.
  induction ss as [|x xs IH]; [done|].
  rewrite filter_cons, decide_True by done. by rewrite IH.
Qed.

(** Dropping the rejected objects first changes nothing for a validator
    that accepts everything. *)
Lemma valid_objects_valid_only validator settings :
  valid_objects accept_all (valid_only validator settings) = valid_objects validator settings.
Proof.
  unfold valid_objects, valid_only.
  induction settings as [|[ruleKey ss] settings IH]; [done|].
  rewrite fmap_cons, !bind_cons, IH. f_equal. apply filter_accept_all.
Qed.

Lemma rejected_valid_only validator settings :
  rejected accept_all (valid_only validator settings) = [].
Proof.
  unfold rejected, valid_only.
  induction settings as [|[ruleKey ss] settings IH]; [done|].
  rewrite fmap_cons, bind_cons, IH, app_nil_r. simpl.
  unfold rejected_of. by induction (filter _ ss).
Qed.

(** An entry, once stored, stays. *)
Lemma keep_first_stays m ss fp s :
  m !! fp = Some s → foldl keep_first m ss !! fp = Some s.
Proof.
  revert m. induction ss as [|x ss IH]; intros m Hm; simpl; [done|].
  apply IH. unfold keep_first. destruct (m !! models.Fingerprint x) eqn:Hx; [done|].
  rewrite lookup_insert_ne; [done|]. intros <-. congruence.
Qed.

(** Every entry is an object of the list under its own fingerprint, or was
    there before. *)
Lemma keep_first_origin m ss fp s :
  foldl keep_first m ss !! fp = Some s →
  m !! fp = Some s ∨ (s ∈ ss ∧ fp = models.Fingerprint s).
Proof.
  revert m. induction ss as [|x ss IH]; intros m; simpl; [by left|].
  intros [Hm|[Hs ->]]%IH.
  - unfold keep_first in Hm. destruct (m !! models.Fingerprint x) eqn:Hx; [by left|].
    destruct (decide (models.Fingerprint x = fp)) as [<-|Hne].
    + rewrite lookup_insert_eq in Hm. injection Hm as ->. right. split; [by left|done].
    + rewrite lookup_insert_ne in Hm by done. by left.
  - right. split; [by right|done].
Qed.

(** The fingerprint of every object of the list has its entry. *)
Lemma keep_first_covers m ss s :
  s ∈ ss → is_Some (foldl keep_first m ss !! models.Fingerprint s).
Proof.
  revert m. induction ss as [|x ss IH]; intros m Hs; [by apply elem_of_nil in Hs|].
  apply elem_of_cons in Hs as [<-|Hs]; [|by apply IH]. simpl.
  unfold keep_first. destruct (m !! models.Fingerprint s) as [s'|] eqn:Hm.
  - exists s'. by apply keep_first_stays.
  - exists s. apply keep_first_stays. by rewrite lookup_insert_eq.
Qed.

(** Copies of a stored object change nothing. *)
Lemma keep_first_copies m ss s :
  is_Some (m !! models.Fingerprint s) → Forall (λ x, x = s) ss → foldl keep_first m ss = m.
Proof.
  intros [s' Hm] Hall. induction Hall as [|x ss -> _ IH]; [done|].
  simpl. unfold keep_first at 2. by rewrite Hm.
Qed.

End collect_facts.

(** ** The synthesis as a whole *)

Section synthesis_facts.
Context `{!data.Decls, !labels.Decls, !model.Decls, !models.Decls}.

Implicit Types (validator : notificaitonSettingsValidator) (store : autogenRuleStore).
Implicit Types (m : gmap data.Fingerprint models.NotificationSettings).
Implicit Types (s setting : models.NotificationSettings).
Implicit Types (settings : list (models.AlertRuleKey * list models.NotificationSettings)).
Implicit Types (mapsKeys : gmap data.Fingerprint models.NotificationSettings → list data.Fingerprint).

(** An error of the loop is an error of [labels.NewMatcher], called for an
    equality matcher. *)
Lemma loop_Err m keys st e :
  loop m keys st = Err e → ∃ n v, labels.NewMatcher labels.MatchEqual n v = Err e.
Proof.
  revert st. induction keys as [|fp keys IH]; intros st; simpl; [discriminate|].
  destruct (loop_body m st fp) as [st1|e1] eqn:Hbody; simpl; [by apply IH|].
  intros [= <-]. unfold loop_body, lookup_or_create, mbind, result_bind in Hbody.
  repeat case_match; simplify_eq/=; eauto.
Qed.

(** So is an error of the builder, which then returns no route. *)
Lemma generateRouteFromSettings_Err defaultReceiver m keys ar e :
  generateRouteFromSettings defaultReceiver m keys = (ar, Some e) →
  ar = autogeneratedRoute_zero ∧ ∃ n v, labels.NewMatcher labels.MatchEqual n v = Err e.
Proof.
  unfold generateRouteFromSettings.
  destruct (labels.NewMatcher _ _ _) as [rootMatcher|e1] eqn:Hroot.
  - destruct (loop _ _ _) as [st|e1] eqn:Hloop; intros [= <- <-]. split; [done|].
    by eapply loop_Err.
  - intros [= <- <-]. eauto.
Qed.

(** When equality matchers can always be built, the builder returns a route. *)
Lemma generateRouteFromSettings_returns defaultReceiver m keys :
  (∀ n v, ∃ matcher, labels.NewMatcher labels.MatchEqual n v = Ok matcher) →
  ∃ r, generateRouteFromSettings defaultReceiver m keys =
         ({| Route := Some r;
             Fingerprint := calculateAutogeneratedRouteHash (slices_Sort keys) |}, None).
Proof.
  intros Htotal. unfold generateRouteFromSettings.
  destruct (Htotal models.AutogeneratedRouteLabel "true") as [rootMatcher ->].
  destruct (loop _ _ _) as [st|e] eqn:Hloop; [by eexists|].
  apply loop_Err in Hloop as (n & v & Hmatcher).
  destruct (Htotal n v) as [matcher Hok]. congruence.
Qed.

(** C6: the collected map holds every object under its own fingerprint, so
    no two entries share a fingerprint; the fingerprint of every listed and
    accepted object has exactly its one entry; and a listing that consists of
    copies of one accepted object only, in any number and under any rules,
    gives the map of that single entry. *)
Theorem collect_unique validator settings :
  let notificationSettings := (collect validator settings).1 in
  (∀ fp s, notificationSettings !! fp = Some s → fp = models.Fingerprint s) ∧
  (∀ fp1 fp2 s1 s2,
     notificationSettings !! fp1 = Some s1 → notificationSettings !! fp2 = Some s2 →
     models.Fingerprint s1 = models.Fingerprint s2 → fp1 = fp2 ∧ s1 = s2) ∧
  (∀ ruleKey ruleSettings s,
     (ruleKey, ruleSettings) ∈ settings → s ∈ ruleSettings → Validate validator s = None →
     ∃ s', notificationSettings !! models.Fingerprint s = Some s' ∧
           models.Fingerprint s' = models.Fingerprint s) ∧
  (∀ ruleKey ruleSettings s,
     (ruleKey, ruleSettings) ∈ settings → s ∈ ruleSettings → Validate validator s = None →
     (∀ ruleKey' ruleSettings' s',
        (ruleKey', ruleSettings') ∈ settings → s' ∈ ruleSettings' → s' = s) →
     notificationSettings = {[models.Fingerprint s := s]} ∧ size notificationSettings = 1%nat).
Proof.
  intros notificationSettings. subst notificationSettings. rewrite collect_eq. simpl.
  assert (∀ fp s, foldl keep_first ∅ (valid_objects validator settings) !! fp = Some s →
                  fp = models.Fingerprint s) as Hkey.
  { intros fp s [Hempty|[_ ->]]%keep_first_origin; [|done]. by rewrite lookup_empty in Hempty. }
  split_and!.
  - exact Hkey.
  - intros fp1 fp2 s1 s2 Hfp1 Hfp2 Heq.
    pose proof (Hkey _ _ Hfp1) as ->. pose proof (Hkey _ _ Hfp2) as ->.
    split; [done|]. rewrite Heq in Hfp1. congruence.
  - intros ruleKey ruleSettings s Hrule Hs Hvalid.
    destruct (keep_first_covers ∅ (valid_objects validator settings) s) as [s' Hs'].
    { apply elem_of_valid_objects. eauto. }
    exists s'. split; [done|]. symmetry. by apply Hkey.
  - intros ruleKey ruleSettings s Hrule Hs Hvalid Hcopies.
    assert (s ∈ valid_objects validator settings) as Hin.
    { apply elem_of_valid_objects. eauto. }
    assert (Forall (λ x, x = s) (valid_objects validator settings)) as Hall.
    { apply Forall_forall. intros x (_ & ruleKey' & ss' & Hrule' & Hx)%elem_of_valid_objects.
      by eapply Hcopies. }
    destruct (valid_objects validator settings) as [|x xs]; [by apply elem_of_nil in Hin|].
    apply Forall_cons in Hall as [-> Hall]. simpl.
    unfold keep_first at 2 4. rewrite lookup_empty, insert_empty.
    rewrite (keep_first_copies _ xs s); [|by rewrite lookup_singleton_eq|done].
    split; [done|]. apply map_size_singleton.
Qed.

(** C7: when the listing succeeds and no settings are collected, the
    synthesis returns no route, the fingerprint zero and no error. *)
Theorem newAutogeneratedRoute_empty orgId store defaultReceiver validator mapsKeys settings :
  ListNotificationSettings store orgId = (settings, None) →
  (collect validator settings).1 = ∅ →
  (newAutogeneratedRoute orgId store defaultReceiver validator mapsKeys).1 =
    ({| Route := None; Fingerprint := 0 |}, None).
Proof.
  intros Hlist Hempty. unfold newAutogeneratedRoute. rewrite Hlist.
  destruct (collect validator settings) as [notificationSettings log]. simpl in Hempty.
  subst notificationSettings. rewrite decide_True by apply map_size_empty. done.
Qed.

(** C9: a failure of the listing is returned, wrapped, with no route and
    nothing logged; after a listing that succeeds, the result is the one of a
    listing without the rejected objects, each of them is logged, and an
    error, if any, is a wrapped error of [labels.NewMatcher], so that there is
    none when equality matchers can always be built. *)
Theorem newAutogeneratedRoute_failures orgId store defaultReceiver validator mapsKeys :
  (∀ settings err,
     ListNotificationSettings store orgId = (settings, Some err) →
     newAutogeneratedRoute orgId store defaultReceiver validator mapsKeys =
       (({| Route := None; Fingerprint := 0 |},
         Some (fmt_Errorf_w "failed to list alert rules: %w" err)), [])) ∧
  (∀ settings,
     ListNotificationSettings store orgId = (settings, None) →
     (newAutogeneratedRoute orgId store defaultReceiver validator mapsKeys).1 =
       (newAutogeneratedRoute orgId
          {| ListNotificationSettings := λ _, (valid_only validator settings, None) |}
          defaultReceiver accept_all mapsKeys).1 ∧
     (newAutogeneratedRoute orgId store defaultReceiver validator mapsKeys).2 =
       rejected validator settings ∧
     (∀ err,
        (newAutogeneratedRoute orgId store defaultReceiver validator mapsKeys).1.2 = Some err →
        ∃ e n v,
          labels.NewMatcher labels.MatchEqual n v = Err e ∧
          err = fmt_Errorf_w "failed to create autogenerated route: %w" e) ∧
     ((∀ n v, ∃ matcher, labels.NewMatcher labels.MatchEqual n v = Ok matcher) →
      (newAutogeneratedRoute orgId store defaultReceiver validator mapsKeys).1.2 = None)).
Proof.
  split.
  { intros settings err Hlist. unfold newAutogeneratedRoute. by rewrite Hlist. }
  intros settings Hlist.
  assert (∀ err,
    (newAutogeneratedRoute orgId store defaultReceiver validator mapsKeys).1.2 = Some err →
    ∃ e n v, labels.NewMatcher labels.MatchEqual n v = Err e ∧
             err = fmt_Errorf_w "failed to create autogenerated route: %w" e) as Horigin.
  { intros err. unfold newAutogeneratedRoute. rewrite Hlist.
    destruct (collect validator settings) as [notificationSettings log].
    case_decide; [discriminate|].
    destruct (generateRouteFromSettings _ _ _) as [ar [e|]] eqn:Hgen; [|discriminate].
    intros [= <-]. apply generateRouteFromSettings_Err in Hgen as (_ & n & v & Hmatcher).
    eauto. }
  split_and!.
  - unfold newAutogeneratedRoute. rewrite Hlist. simpl. rewrite !collect_eq.
    rewrite valid_objects_valid_only.
    case_decide; [done|]. by destruct (generateRouteFromSettings _ _ _) as [ar [e|]].
  - unfold newAutogeneratedRoute. rewrite Hlist, collect_eq.
    case_decide; [done|]. by destruct (generateRouteFromSettings _ _ _) as [ar [e|]].
  - exact Horigin.
  - intros Htotal.
    destruct ((newAutogeneratedRoute orgId store defaultReceiver validator mapsKeys).1.2)
      as [err|] eqn:Herr; [|done].
    destruct (Horigin err eq_refl) as (e & n & v & Hmatcher & _).
    destruct (Htotal n v) as [matcher Hok]. congruence.
Qed.

End synthesis_facts.

(** ** The bytes and the range of the hash *)

(** A number is below [2^n] exactly when it has no bit from [n] on. *)
Lemma N_lt_pow2_bits (a n : N) : a < 2 ^ n ↔ ∀ m, n ≤ m → N.testbit a m = false.
Proof.
  split.
  - intros Ha m Hm. rewrite <-(N.mod_small a (2 ^ n)) by done.
    by apply N.mod_pow2_bits_high.
  - intros Hbits. assert (a = a mod 2 ^ n) as ->.
    { apply N.bits_inj. intros m. destruct (decide (m < n)) as [Hlt|Hge].
      - by rewrite N.mod_pow2_bits_low.
      - rewrite N.mod_pow2_bits_high by lia. apply Hbits. lia. }
    apply N.mod_lt. by apply N.pow_nonzero.
Qed.

Lemma N_lxor_lt_pow2 (a b n : N) : a < 2 ^ n → b < 2 ^ n → N.lxor a b < 2 ^ n.
Proof.
  rewrite !N_lt_pow2_bits. intros Ha Hb m Hm.
  by rewrite N.lxor_spec, Ha, Hb.
Qed.

Lemma N_land_255_lt (a : N) : N.land a 255 < 256.
Proof.
  change 255 with (N.ones 8). rewrite N.land_ones. by apply N.mod_lt.
Qed.

(** The state of the hash stays within 64 bits. *)
Lemma fnv_Write_lt (sum : N) (bytes : list N) :
  sum < fnv.two64 → Forall (λ c, c < 256) bytes → fnv.Write sum bytes < fnv.two64.
Proof.
  intros Hsum Hbytes. revert sum Hsum. unfold fnv.Write.
  induction Hbytes as [|c bytes Hc _ IH]; intros sum Hsum; simpl; [done|].
  apply IH. apply (N_lxor_lt_pow2 _ _ 64).
  - apply N.mod_lt. done.
  - unfold fnv.two64 in *. lia.
Qed.

Lemma PutUint64_bytes (v : N) :
  length (binary.PutUint64 v) = 8%nat ∧ Forall (λ c, c < 256) (binary.PutUint64 v).
Proof.
  split; [done|]. unfold binary.PutUint64. apply Forall_fmap, Forall_forall.
  intros i _. apply N_land_255_lt.
Qed.

Lemma write_lt (sum : N) (fp : data.Fingerprint) : sum < fnv.two64 → write sum fp < fnv.two64.
Proof.
  intros Hsum. unfold write. apply fnv_Write_lt; [apply fnv_Write_lt; [done|]|].
  - apply PutUint64_bytes.
  - repeat constructor.
Qed.

(** X1: whatever the fingerprints, the hash is a 64-bit value. *)
Theorem calculateAutogeneratedRouteHash_uint64 (fp : list data.Fingerprint) :
  calculateAutogeneratedRouteHash fp < 2 ^ 64.
Proof.
  unfold calculateAutogeneratedRouteHash, fnv.Sum64. change (2 ^ 64) with fnv.two64.
  assert (fnv.New64 < fnv.two64) as Hinit by done.
  revert Hinit. generalize fnv.New64. induction fp as [|f fp IH]; intros sum Hsum; [done|].
  simpl. by apply IH, write_lt.
Qed.

(** The [i]-th byte sees the low 64 bits only. *)
Lemma PutUint64_byte_bits (v : N) (i : nat) (j : N) :
  N.testbit (N.land (N.shiftr v (8 * N.of_nat i)) 255) j =
  N.testbit v (j + 8 * N.of_nat i) && bool_decide (j < 8).
Proof.
  rewrite N.land_spec, N.shiftr_spec'. f_equal.
  change 255 with (N.ones 8). case_bool_decide.
  - by apply N.ones_spec_low.
  - apply N.ones_spec_high. lia.
Qed.

Lemma fmap_eq_inv {A B : Type} (f g : A → B) (l : list A) :
  f <$> l = g <$> l → ∀ x, x ∈ l → f x = g x.
Proof.
  induction l as [|y l IH]; intros Heq x Hx; [by apply elem_of_nil in Hx|].
  injection Heq as Hy Hl. apply elem_of_cons in Hx as [->|Hx]; [done|by apply IH].
Qed.

(** X2: [PutUint64] writes eight bytes, each below 256, and two values are
    written alike exactly when they agree on their low 64 bits; fingerprints
    below [2^64] are thus written alike only if they are equal. *)
Theorem PutUint64_inj (a b : N) :
  length (binary.PutUint64 a) = 8%nat ∧
  Forall (λ c, c < 256) (binary.PutUint64 a) ∧
  (binary.PutUint64 a = binary.PutUint64 b ↔ a mod 2 ^ 64 = b mod 2 ^ 64) ∧
  (a < 2 ^ 64 → b < 2 ^ 64 → binary.PutUint64 a = binary.PutUint64 b → a = b).
Proof.
  assert (binary.PutUint64 a = binary.PutUint64 b ↔ a mod 2 ^ 64 = b mod 2 ^ 64) as Hiff.
  { split.
    - intros Heq. apply N.bits_inj. intros m.
      destruct (decide (m < 64)) as [Hlt|Hge];
        [|by rewrite !N.mod_pow2_bits_high by lia].
      rewrite !N.mod_pow2_bits_low by done.
      pose proof (fmap_eq_inv _ _ _ Heq (N.to_nat (m / 8))) as Hbyte.
      simpl in Hbyte.
      assert (N.to_nat (m / 8) ∈ seq 0 8) as Hin.
      { apply elem_of_seq. assert (m / 8 < 8) as Hq by (apply N.Div0.div_lt_upper_bound; lia).
        revert Hq. generalize (m / 8). intros q Hq. lia. }
      specialize (Hbyte Hin).
      apply (f_equal (λ c, N.testbit c (m mod 8))) in Hbyte.
      rewrite !PutUint64_byte_bits in Hbyte. rewrite N2Nat.id in Hbyte.
      assert (m mod 8 + 8 * (m / 8) = m) as Hm.
      { rewrite N.add_comm. symmetry. by apply N.div_mod. }
      rewrite Hm in Hbyte.
      assert (m mod 8 < 8) as Hlow by (by apply N.mod_lt).
      rewrite bool_decide_true in Hbyte by done.
      by rewrite !andb_true_r in Hbyte.
    - intros Heq. unfold binary.PutUint64. apply list_fmap_ext. intros k i Hi.
      apply lookup_seq in Hi as [-> Hk]. simpl in *.
      apply N.bits_inj. intros j. rewrite !PutUint64_byte_bits.
      case_bool_decide; [|by rewrite !andb_false_r]. rewrite !andb_true_r.
      rewrite <-(N.mod_pow2_bits_low a 64), <-(N.mod_pow2_bits_low b 64) by lia.
      by rewrite Heq. }
  split_and!; try apply PutUint64_bytes; [done|].
  intros Ha Hb Heq%Hiff. by rewrite !N.mod_small in Heq.
Qed.

(** ** The shape of the tree *)

Lemma first_seen_snoc (names : list string) (name : string) :
  first_seen (names ++ [name]) =
  if decide (name ∈ first_seen names) then first_seen names else first_seen names ++ [name].
Proof. unfold first_seen. by rewrite foldl_app. Qed.

Lemma elem_of_first_seen (names : list string) (x : string) :
  x ∈ first_seen names ↔ x ∈ names.
Proof.
  induction names as [|name names IH] using rev_ind; [done|].
  rewrite first_seen_snoc. case_decide as Hseen.
  - rewrite elem_of_app, list_elem_of_singleton, IH. split; [by left|].
    intros [Hx| ->]; [done|]. by apply IH.
  - by rewrite !elem_of_app, IH.
Qed.

Lemma NoDup_first_seen (names : list string) : NoDup (first_seen names).
Proof.
  induction names as [|name names IH] using rev_ind; [constructor|].
  rewrite first_seen_snoc. case_decide as Hseen; [done|].
  apply NoDup_app. split_and!; [done| |apply NoDup_singleton].
  intros x Hx ->%list_elem_of_singleton. done.
Qed.

Lemma Exists_alter_mono {A : Type} (P : A → Prop) (f : A → A) (i : nat) (l : list A) :
  (∀ x, P x → P (f x)) → Exists P l → Exists P (alter f i l).
Proof.
  intros Hmono Hex. revert i. induction Hex as [x l Hx|x l Hl IH]; intros [|i]; simpl.
  - left. by apply Hmono.
  - by left.
  - by right.
  - right. apply IH.
Qed.

Lemma Exists_alter_at {A : Type} (P : A → Prop) (f : A → A) (i : nat) (l : list A) (x : A) :
  l !! i = Some x → P (f x) → Exists P (alter f i l).
Proof.
  intros Hi Hx. apply Exists_exists. exists (f x). split; [|done].
  apply list_elem_of_lookup. exists i. by rewrite list_lookup_alter_eq, Hi.
Qed.

Section shape_facts.
Context `{!data.Decls, !labels.Decls, !model.Decls, !models.Decls}.

Implicit Types (settings : gmap data.Fingerprint models.NotificationSettings).
Implicit Types (st : loopState) (s : models.NotificationSettings).
Implicit Types (fp : data.Fingerprint) (keys done : list data.Fingerprint).
Implicit Types (b l root leaf : definitions.Route) (rs : list definitions.Route).

Lemma receiverRoute_for_mono settings done done' b :
  done ⊆ done' → receiverRoute_for settings done b → receiverRoute_for settings done' b.
Proof.
  intros Hsub (Hm & Hc & Hg & Hmt & Hgw & Hgi & Hri & Hleaves). split_and!; try done.
  eapply Forall_impl; [exact Hleaves|]. intros l (fp & Hfp & Hrest). exists fp. split; [|done].
  by apply Hsub.
Qed.

Lemma leaves_complete_prefix settings done rs rs' :
  rs `prefix_of` rs' → leaves_complete settings done rs → leaves_complete settings done rs'.
Proof.
  intros [more ->] Hcomplete fp Hfp Hdef. apply Exists_app. left. by apply Hcomplete.
Qed.

(** Lines 87-103 on the invariant. *)
Lemma lookup_or_create_tree settings done s st (p : nat) st1 :
  lookup_or_create s st = Ok (p, st1) →
  index_inv st →
  index_inv st1 ∧
  receivers (autoGenRoot st1) =
    (if decide (models.Receiver s ∈ receivers (autoGenRoot st))
     then receivers (autoGenRoot st)
     else receivers (autoGenRoot st) ++ [models.Receiver s]) ∧
  (∃ b, definitions.Routes (autoGenRoot st1) !! p = Some b ∧
        definitions.Receiver b = models.Receiver s) ∧
  definitions.Routes (autoGenRoot st) `prefix_of` definitions.Routes (autoGenRoot st1) ∧
  (Forall (receiverRoute_for settings done) (definitions.Routes (autoGenRoot st)) →
   Forall (receiverRoute_for settings done) (definitions.Routes (autoGenRoot st1))).
Proof.
  unfold lookup_or_create. intros Hcreate Hindex.
  destruct (receiverRoutes st !! models.Receiver s) as [q|] eqn:Hlk.
  - injection Hcreate as <- <-.
    destruct (proj1 (Hindex _ _) Hlk) as (b & Hb & Hname).
    split_and!; try done; [|eauto].
    rewrite decide_True; [done|]. unfold receivers. rewrite <-Hname.
    apply list_elem_of_fmap_2. by eapply list_elem_of_lookup_2.
  - destruct (labels.NewMatcher _ _ _) as [contactMatcher|e] eqn:Hmatcher; simpl in Hcreate;
      [|discriminate].
    injection Hcreate as <- <-. simpl.
    assert (models.Receiver s ∉ receivers (autoGenRoot st)) as Hfresh.
    { intros (b & Hname & (i & Hi)%list_elem_of_lookup)%list_elem_of_fmap.
      assert (receiverRoutes st !! models.Receiver s = Some i) as Hsome.
      { apply Hindex. eauto. }
      congruence. }
    split_and!.
    + intros name q. simpl. split.
      * destruct (decide (models.Receiver s = name)) as [<-|Hne].
        -- rewrite lookup_insert_eq. intros [= <-].
           eexists. split; [by apply list_lookup_middle|done].
        -- rewrite lookup_insert_ne by done. intros (b & Hb & Hname)%Hindex.
           exists b. split; [by apply lookup_app_l_Some|done].
      * intros (b & Hb & Hname). apply lookup_app_Some in Hb as [Hb|[Hlen Hb]].
        -- assert (receiverRoutes st !! name = Some q) as Hq by (apply Hindex; eauto).
           rewrite lookup_insert_ne; [done|]. intros Heq. congruence.
        -- apply list_lookup_singleton_Some in Hb as [Hq <-]. simpl in Hname. subst name.
           assert (q = length (definitions.Routes (autoGenRoot st))) as -> by lia.
           by rewrite lookup_insert_eq.
    + rewrite decide_False by done. unfold receivers. simpl. by rewrite fmap_app.
    + eexists. split; [by apply list_lookup_middle|done].
    + by apply prefix_app_r.
    + intros Hall. apply Forall_app. split; [done|]. constructor; [|constructor].
      split_and!; simpl; try done; eauto.
Qed.

(** Lines 109-123 on the invariant: the write through the pointer [p]. *)
Lemma append_leaf_tree settings done fp rs (p : nat) b settingMatcher :
  let s := settings_at settings fp in
  let leaf := settingRoute_new s settingMatcher in
  rs !! p = Some b →
  definitions.Receiver b = models.Receiver s →
  models.IsAllDefault s = false →
  labels.NewMatcher labels.MatchEqual models.AutogeneratedRouteSettingsHashLabel
    (data.Fingerprint_String (models.Fingerprint s)) = Ok settingMatcher →
  Forall (receiverRoute_for settings done) rs →
  leaves_complete settings done rs →
  Forall (receiverRoute_for settings (done ++ [fp])) (alter (λ r, append_Routes r leaf) p rs) ∧
  leaves_complete settings (done ++ [fp]) (alter (λ r, append_Routes r leaf) p rs).
Proof.
  intros s leaf Hb Hname Hdef Hmatcher Hall Hcomplete.
  assert (settingRoute_for s leaf) as Hleaf by (by exists settingMatcher).
  split.
  - apply Forall_alter.
    + eapply Forall_impl; [exact Hall|]. intros b'. apply receiverRoute_for_mono.
      intros x Hx. apply elem_of_app. by left.
    + intros b' Hb' (Hm & Hc & Hg & Hmt & Hgw & Hgi & Hri & Hleaves).
      assert (b' = b) as -> by congruence.
      split_and!; simpl; try done. apply Forall_app. split.
      * exact Hleaves.
      * constructor; [|constructor]. exists fp. split_and!; try done.
        apply elem_of_app. right. by apply list_elem_of_singleton.
  - intros fp' [Hfp'| ->%list_elem_of_singleton]%elem_of_app Hdef'.
    + apply Exists_alter_mono; [|by apply Hcomplete].
      intros b' (Hname' & l & Hl & Hfor). split; [done|]. exists l. split; [|done].
      simpl. apply elem_of_app. by left.
    + eapply Exists_alter_at; [exact Hb|]. split; [done|]. exists leaf. split; [|done].
      simpl. apply elem_of_app. right. by apply list_elem_of_singleton.
Qed.

(** One iteration on the invariant. *)
Lemma loop_body_tree settings done st fp st' :
  loop_body settings st fp = Ok st' →
  tree_inv settings done st →
  tree_inv settings (done ++ [fp]) st'.
Proof.
  unfold loop_body. set (s := settings_at settings fp).
  destruct (lookup_or_create s st) as [[p st1]|e] eqn:Hcreate; simpl; [|discriminate].
  intros Hbody (Hindex & Hrecv & Hall & Hcomplete).
  destruct (lookup_or_create_tree settings done s st p st1 Hcreate Hindex)
    as (Hindex1 & Hrecv1 & (b & Hb & Hname) & Hpre & Hall1).
  specialize (Hall1 Hall).
  pose proof (leaves_complete_prefix _ _ _ _ Hpre Hcomplete) as Hcomplete1.
  assert (receivers (autoGenRoot st1) = first_seen (receivers_of settings (done ++ [fp])))
    as Hrecv1'.
  { unfold receivers_of. rewrite fmap_app. simpl. rewrite first_seen_snoc.
    fold (receivers_of settings done). rewrite <-Hrecv. exact Hrecv1. }
  destruct (models.IsAllDefault s) eqn:Hdef.
  - injection Hbody as <-. split_and!; try done.
    + eapply Forall_impl; [exact Hall1|]. intros b'. apply receiverRoute_for_mono.
      intros x Hx. apply elem_of_app. by left.
    + intros fp' [Hfp'| ->%list_elem_of_singleton]%elem_of_app Hdef'.
      * by apply Hcomplete1.
      * fold s in Hdef'. congruence.
  - destruct (labels.NewMatcher _ _ _) as [settingMatcher|e] eqn:Hmatcher; simpl in Hbody;
      [|discriminate].
    injection Hbody as <-.
    destruct (append_leaf_tree settings done fp _ p b settingMatcher Hb Hname Hdef Hmatcher
                Hall1 Hcomplete1) as [Hall' Hcomplete'].
    split_and!; simpl; try done.
    + intros name q. simpl. rewrite (Hindex1 name q). split.
      * intros (b' & Hb' & Hname'). destruct (decide (p = q)) as [<-|Hne].
        -- rewrite list_lookup_alter_eq, Hb'. simpl. eauto.
        -- rewrite list_lookup_alter_ne by done. eauto.
      * intros (b' & Hb' & Hname'). destruct (decide (p = q)) as [<-|Hne].
        -- rewrite list_lookup_alter_eq in Hb'.
           destruct (definitions.Routes (autoGenRoot st1) !! p) as [b0|]; simplify_eq/=. eauto.
        -- rewrite list_lookup_alter_ne in Hb' by done. eauto.
    + rewrite <-Hrecv1'. unfold receivers. simpl. apply receivers_alter.
Qed.

(** The whole loop on the invariant. *)
Lemma loop_tree settings keys done st st' :
  loop settings keys st = Ok st' →
  tree_inv settings done st →
  tree_inv settings (done ++ keys) st'.
Proof.
  revert done st. induction keys as [|fp keys IH]; intros done st; simpl.
  - intros [= <-]. by rewrite app_nil_r.
  - destruct (loop_body settings st fp) as [st1|e] eqn:Hbody; simpl; [|discriminate].
    intros Hloop Hinv. rewrite cons_middle, app_assoc. apply (IH _ st1 Hloop).
    by eapply loop_body_tree.
Qed.

Lemma tree_inv_init settings root :
  definitions.Routes root = [] →
  tree_inv settings [] {| autoGenRoot := root; receiverRoutes := ∅ |}.
Proof.
  intros Hroutes. split_and!; simpl.
  - intros name p. simpl. rewrite lookup_empty, Hroutes. split; [done|].
    intros (b & Hb & _). by rewrite lookup_nil in Hb.
  - unfold receivers. by rewrite Hroutes.
  - rewrite Hroutes. constructor.
  - intros fp Hfp. by apply elem_of_nil in Hfp.
Qed.

(** What a returned route satisfies, in one statement. *)
Lemma generateRouteFromSettings_tree defaultReceiver settings mapsKeys r (F : data.Fingerprint) :
  generateRouteFromSettings defaultReceiver settings mapsKeys =
    ({| Route := Some r; Fingerprint := F |}, None) →
  ∃ st, r = autoGenRoot st ∧ tree_inv settings (slices_Sort mapsKeys) st.
Proof.
  intros (rootMatcher & st & Hloop & -> & _)%generateRouteFromSettings_inv.
  exists st. split; [done|].
  apply (loop_tree _ _ [] _ _ Hloop). by apply tree_inv_init.
Qed.

End shape_facts.

Section tree_extras.
Context `{!data.Decls, !labels.Decls, !model.Decls, !models.Decls}.

Implicit Types (settings : gmap data.Fingerprint models.NotificationSettings).
Implicit Types (st : loopState) (s : models.NotificationSettings).
Implicit Types (fp : data.Fingerprint) (keys mapsKeys : list data.Fingerprint).
Implicit Types (b l r : definitions.Route).

(** The sorted keys of a map are its keys. *)
Lemma elem_of_sorted_keys settings mapsKeys fp :
  maps_Keys settings mapsKeys → fp ∈ slices_Sort mapsKeys ↔ is_Some (settings !! fp).
Proof.
  intros Hkeys. rewrite slices_Sort_Permutation, Hkeys, list_elem_of_fmap. split.
  - intros ([k s] & -> & Hks%elem_of_map_to_list). eauto.
  - intros [s Hs]. exists (fp, s). split; [done|]. by apply elem_of_map_to_list.
Qed.

Lemma settings_at_Some settings fp s : settings !! fp = Some s → settings_at settings fp = s.
Proof. unfold settings_at. by intros ->. Qed.

(** X3: a returned tree has one node of layer 2 per receiver, and these
    nodes stand in the order in which the receivers first occur along the
    ascending fingerprints. *)
Theorem generateRouteFromSettings_receivers defaultReceiver settings mapsKeys r
    (F : data.Fingerprint) :
  generateRouteFromSettings defaultReceiver settings mapsKeys =
    ({| Route := Some r; Fingerprint := F |}, None) →
  NoDup (receivers r) ∧
  receivers r = first_seen (receivers_of settings (slices_Sort mapsKeys)).
Proof.
  intros (st & -> & _ & Hrecv & _)%generateRouteFromSettings_tree.
  split; [|done]. rewrite Hrecv. apply NoDup_first_seen.
Qed.

Lemma receivers_of_map defaultReceiver settings mapsKeys r (F : data.Fingerprint)
    (name : string) :
  maps_Keys settings mapsKeys →
  generateRouteFromSettings defaultReceiver settings mapsKeys =
    ({| Route := Some r; Fingerprint := F |}, None) →
  name ∈ receivers r ↔ ∃ fp s, settings !! fp = Some s ∧ models.Receiver s = name.
Proof.
  intros Hkeys (st & -> & _ & Hrecv & _)%generateRouteFromSettings_tree.
  rewrite Hrecv, elem_of_first_seen. unfold receivers_of. rewrite list_elem_of_fmap. split.
  - intros (fp & -> & [s Hs]%(elem_of_sorted_keys settings mapsKeys fp Hkeys)).
    exists fp, s. split; [done|]. by rewrite (settings_at_Some _ _ _ Hs).
  - intros (fp & s & Hs & <-). exists fp. split; [by rewrite (settings_at_Some _ _ _ Hs)|].
    apply (elem_of_sorted_keys settings mapsKeys fp Hkeys). eauto.
Qed.

(** X4: the receivers of layer 2 are exactly the receivers of the entries
    of the map: none is missing and no other receiver has a node. *)
Theorem generateRouteFromSettings_receivers_exact defaultReceiver settings mapsKeys r
    (F : data.Fingerprint) (name : string) :
  maps_Keys settings mapsKeys →
  generateRouteFromSettings defaultReceiver settings mapsKeys =
    ({| Route := Some r; Fingerprint := F |}, None) →
  name ∈ receivers r ↔ ∃ fp s, settings !! fp = Some s ∧ models.Receiver s = name.
Proof. apply receivers_of_map. Qed.

(** X5: every entry of the map that is not all default has its node of
    layer 3: under the node of its receiver there is the node built from its
    settings, with the matcher of its hash. *)
Theorem generateRouteFromSettings_leaf_present defaultReceiver settings mapsKeys fp s r
    (F : data.Fingerprint) :
  maps_Keys settings mapsKeys →
  settings !! fp = Some s →
  models.IsAllDefault s = false →
  generateRouteFromSettings defaultReceiver settings mapsKeys =
    ({| Route := Some r; Fingerprint := F |}, None) →
  ∃ b settingMatcher,
    b ∈ definitions.Routes r ∧ definitions.Receiver b = models.Receiver s ∧
    labels.NewMatcher labels.MatchEqual models.AutogeneratedRouteSettingsHashLabel
      (data.Fingerprint_String (models.Fingerprint s)) = Ok settingMatcher ∧
    settingRoute_new s settingMatcher ∈ definitions.Routes b.
Proof.
  intros Hkeys Hs Hdef (st & -> & _ & _ & _ & Hcomplete)%generateRouteFromSettings_tree.
  assert (fp ∈ slices_Sort mapsKeys) as Hfp.
  { apply (elem_of_sorted_keys settings mapsKeys fp Hkeys). eauto. }
  specialize (Hcomplete fp Hfp). rewrite (settings_at_Some _ _ _ Hs) in Hcomplete.
  apply Exists_exists in Hcomplete as (b & Hb & Hname & l & Hl & settingMatcher & Hm & ->);
    [|done].
  by exists b, settingMatcher.
Qed.

(** X6: every node of layer 3 is a leaf, stands under the node of its own
    receiver, and is built from an entry of the map that is not all default:
    it carries the matcher of the hash and the options of that entry. *)
Theorem generateRouteFromSettings_leaf_shape defaultReceiver settings mapsKeys r
    (F : data.Fingerprint) b l :
  generateRouteFromSettings defaultReceiver settings mapsKeys =
    ({| Route := Some r; Fingerprint := F |}, None) →
  b ∈ definitions.Routes r → l ∈ definitions.Routes b →
  definitions.Receiver l = definitions.Receiver b ∧
  definitions.Routes l = [] ∧
  ∃ fp s settingMatcher,
    settings !! fp = Some s ∧ models.IsAllDefault s = false ∧
    models.Receiver s = definitions.Receiver b ∧
    labels.NewMatcher labels.MatchEqual models.AutogeneratedRouteSettingsHashLabel
      (data.Fingerprint_String (models.Fingerprint s)) = Ok settingMatcher ∧
    definitions.ObjectMatchers l = [settingMatcher] ∧
    definitions.GroupByStr l = models.GroupBy s ∧
    definitions.MuteTimeIntervals l = models.MuteTimeIntervals s ∧
    definitions.GroupWait l = models.GroupWait s ∧
    definitions.GroupInterval l = models.GroupInterval s ∧
    definitions.RepeatInterval l = models.RepeatInterval s.
Proof.
  intros (st & -> & _ & _ & Hall & _)%generateRouteFromSettings_tree Hb Hl.
  rewrite Forall_forall in Hall. destruct (Hall b Hb) as (_ & _ & _ & _ & _ & _ & _ & Hleaves).
  rewrite Forall_forall in Hleaves.
  destruct (Hleaves l Hl) as (fp & _ & Hdef & Hname & settingMatcher & Hm & ->).
  split_and!; try done.
  exists fp, (settings_at settings fp), settingMatcher. split_and!; try done.
  by apply settings_at_not_default.
Qed.

(** The loop writes to the children of the root only. *)
Lemma loop_body_root settings st fp st' :
  loop_body settings st fp = Ok st' →
  definitions.set_Routes (autoGenRoot st') (definitions.Routes (autoGenRoot st)) = autoGenRoot st.
Proof.
  unfold loop_body, lookup_or_create, mbind, result_bind. destruct st as [[] index].
  intros Hbody. repeat case_match; simplify_eq/=; done.
Qed.

Lemma loop_root settings keys st st' :
  loop settings keys st = Ok st' →
  definitions.set_Routes (autoGenRoot st') (definitions.Routes (autoGenRoot st)) = autoGenRoot st.
Proof.
  revert st. induction keys as [|fp keys IH]; intros st; simpl.
  - intros [= <-]. by destruct (autoGenRoot st).
  - destruct (loop_body settings st fp) as [st1|e] eqn:Hbody; simpl; [|discriminate].
    intros Hloop. rewrite <-(loop_body_root _ _ _ _ Hbody), <-(IH _ Hloop). done.
Qed.

(** X7: the root of a returned tree has the default receiver, the matcher
    of the autogenerated label and no options; every node of layer 2 has the
    matcher of its own receiver, groups by folder and alert name and has no
    other options. *)
Theorem generateRouteFromSettings_node_shape defaultReceiver settings mapsKeys r
    (F : data.Fingerprint) :
  generateRouteFromSettings defaultReceiver settings mapsKeys =
    ({| Route := Some r; Fingerprint := F |}, None) →
  (∃ rootMatcher,
     labels.NewMatcher labels.MatchEqual models.AutogeneratedRouteLabel "true" = Ok rootMatcher ∧
     r = definitions.mkRoute defaultReceiver [rootMatcher] false (definitions.Routes r)
           [] [] None None None) ∧
  ∀ b, b ∈ definitions.Routes r →
    ∃ contactMatcher,
      labels.NewMatcher labels.MatchEqual models.AutogeneratedRouteReceiverNameLabel
        (definitions.Receiver b) = Ok contactMatcher ∧
      b = definitions.mkRoute (definitions.Receiver b) [contactMatcher] true
            (definitions.Routes b) [models.FolderTitleLabel; model.AlertNameLabel] []
            None None None.
Proof.
  intros Hgen. split.
  - unfold generateRouteFromSettings in Hgen.
    destruct (labels.NewMatcher _ _ _) as [rootMatcher|e]; [|discriminate].
    destruct (loop _ _ _) as [st|e] eqn:Hloop; [|discriminate].
    injection Hgen as <- _. exists rootMatcher. split; [done|].
    apply loop_root in Hloop. simpl in Hloop.
    destruct (autoGenRoot st). unfold definitions.set_Routes in Hloop. simpl in *.
    injection Hloop; intros; by subst.
  - apply generateRouteFromSettings_tree in Hgen as (st & -> & _ & _ & Hall & _).
    intros b Hb. rewrite Forall_forall in Hall.
    destruct (Hall b Hb) as ((contactMatcher & Hm & Hom) & Hc & Hg & Hmt & Hgw & Hgi & Hri & _).
    exists contactMatcher. split; [done|]. destruct b. simpl in *. by subst.
Qed.

(** X8: the hash of a returned route is the hash of the ascending keys, so
    two maps with the same keys have routes of the same hash, whatever
    their values and default receivers. *)
Theorem generateRouteFromSettings_Fingerprint_keys defaultReceiver1 defaultReceiver2
    settings1 settings2 mapsKeys1 mapsKeys2 ar1 ar2 :
  maps_Keys settings1 mapsKeys1 →
  maps_Keys settings2 mapsKeys2 →
  dom settings1 = dom settings2 →
  generateRouteFromSettings defaultReceiver1 settings1 mapsKeys1 = (ar1, None) →
  generateRouteFromSettings defaultReceiver2 settings2 mapsKeys2 = (ar2, None) →
  Fingerprint ar1 = calculateAutogeneratedRouteHash (slices_Sort mapsKeys1) ∧
  Fingerprint ar1 = Fingerprint ar2.
Proof.
  intros Hkeys1 Hkeys2 Hdom Hgen1 Hgen2.
  assert (mapsKeys1 ≡ₚ mapsKeys2) as Hperm.
  { unfold maps_Keys in *. rewrite Hkeys1, Hkeys2.
    apply NoDup_Permutation; try apply NoDup_fst_map_to_list.
    intros fp. rewrite !list_elem_of_fmap.
    assert (∀ m : gmap data.Fingerprint models.NotificationSettings,
              (∃ kv, fp = kv.1 ∧ kv ∈ map_to_list m) ↔ fp ∈ dom m) as Hdom_iff.
    { intros m. rewrite elem_of_dom. split.
      - intros ([k v] & -> & Hkv%elem_of_map_to_list). eauto.
      - intros [v Hv]. exists (fp, v). split; [done|]. by apply elem_of_map_to_list. }
    by rewrite !Hdom_iff, Hdom. }
  unfold generateRouteFromSettings in Hgen1, Hgen2.
  repeat case_match; simplify_eq/=. split; [done|].
  by rewrite (slices_Sort_proper _ _ Hperm).
Qed.

(** A call without error returns a root, which carries the default receiver. *)
Lemma generateRouteFromSettings_root defaultReceiver settings mapsKeys ar :
  generateRouteFromSettings defaultReceiver settings mapsKeys = (ar, None) →
  ∃ r, Route ar = Some r ∧ definitions.Receiver r = defaultReceiver.
Proof.
  unfold generateRouteFromSettings.
  destruct (labels.NewMatcher _ _ _) as [rootMatcher|e]; [|discriminate].
  destruct (loop _ _ _) as [st|e] eqn:Hloop; [|discriminate].
  intros [= <-]. exists (autoGenRoot st). split; [done|].
  apply loop_root in Hloop. by apply (f_equal definitions.Receiver) in Hloop.
Qed.

(** X9: the builder has no case for the empty map: a call without error
    always returns a root, and for the empty map this is the root without
    children, with the hash of no fingerprints, which is not zero. *)
Theorem generateRouteFromSettings_never_empty defaultReceiver settings mapsKeys ar :
  generateRouteFromSettings defaultReceiver settings mapsKeys = (ar, None) →
  (∃ r, Route ar = Some r ∧ definitions.Receiver r = defaultReceiver) ∧
  (mapsKeys = [] →
   (∃ r, Route ar = Some r ∧ definitions.Routes r = []) ∧
   Fingerprint ar = 14695981039346656037 ∧ ar ≠ autogeneratedRoute_zero).
Proof.
  intros Hgen. split; [by eapply generateRouteFromSettings_root|].
  intros ->. destruct (generateRouteFromSettings_root _ _ _ _ Hgen) as (r & Hr & _).
  destruct ar as [route F]. simpl in Hr. subst route.
  apply generateRouteFromSettings_inv in Hgen as (m & st & Hloop & -> & ->).
  simpl in Hloop. injection Hloop as <-. split_and!; [by eexists|done|done].
Qed.

(** The default receiver is written to the root and is read nowhere. *)
Lemma loop_body_with_root_Receiver settings st fp (x : string) :
  loop_body settings (with_root_Receiver x st) fp =
  match loop_body settings st fp with
  | Ok st' => Ok (with_root_Receiver x st')
  | Err e => Err e
  end.
Proof.
  unfold loop_body, lookup_or_create, mbind, result_bind. simpl.
  repeat case_match; simplify_eq/=; done.
Qed.

Lemma loop_with_root_Receiver settings keys st (x : string) :
  loop settings keys (with_root_Receiver x st) =
  match loop settings keys st with
  | Ok st' => Ok (with_root_Receiver x st')
  | Err e => Err e
  end.
Proof.
  revert st. induction keys as [|fp keys IH]; intros st; simpl; [done|].
  rewrite loop_body_with_root_Receiver.
  destruct (loop_body settings st fp) as [st1|e]; simpl; [apply IH|done].
Qed.

Lemma generateRouteFromSettings_defaultReceiver defaultReceiver (x : string) settings mapsKeys :
  generateRouteFromSettings x settings mapsKeys =
  ({| Route := (λ r, definitions.set_Receiver r x) <$>
                 Route (generateRouteFromSettings defaultReceiver settings mapsKeys).1;
      Fingerprint := Fingerprint (generateRouteFromSettings defaultReceiver settings mapsKeys).1 |},
   (generateRouteFromSettings defaultReceiver settings mapsKeys).2).
Proof.
  unfold generateRouteFromSettings.
  destruct (labels.NewMatcher _ _ _) as [rootMatcher|e]; [|done].
  set (st0 := {| autoGenRoot :=
                   definitions.mkRoute defaultReceiver [rootMatcher] false [] [] [] None None None;
                 receiverRoutes := ∅ |}).
  change {| autoGenRoot := definitions.mkRoute x [rootMatcher] false [] [] [] None None None;
            receiverRoutes := ∅ |} with (with_root_Receiver x st0).
  rewrite loop_with_root_Receiver. by destruct (loop _ _ st0) as [st|e].
Qed.

(** X10: after the merge the default receiver has left no trace: with a
    root route present, the routes built for two default receivers are
    merged into the same configuration, and the builder fails for the one
    exactly as for the other. *)
Theorem AddToConfig_defaultReceiver {Other : Type} defaultReceiver1 defaultReceiver2
    settings mapsKeys (config : definitions.PostableUserConfig Other) :
  is_Some (definitions.Config_Route (definitions.AlertmanagerConfig config)) →
  (generateRouteFromSettings defaultReceiver1 settings mapsKeys).2 =
  (generateRouteFromSettings defaultReceiver2 settings mapsKeys).2 ∧
  AddToConfig (Some (generateRouteFromSettings defaultReceiver1 settings mapsKeys).1) config =
  AddToConfig (Some (generateRouteFromSettings defaultReceiver2 settings mapsKeys).1) config.
Proof.
  intros [root Hroot].
  rewrite (generateRouteFromSettings_defaultReceiver defaultReceiver2 defaultReceiver1).
  destruct (generateRouteFromSettings defaultReceiver2 settings mapsKeys) as [[[r|] F] e];
    simpl; (split; [done|]); unfold AddToConfig; rewrite Hroot; done.
Qed.

End tree_extras.

(** ** More on the collection and on the synthesis *)

(** The first element of a list with a decidable property splits the list. *)
Lemma first_with {A : Type} (P : A → Prop) `{!∀ x, Decision (P x)} (l : list A) (x : A) :
  x ∈ l → P x → ∃ l1 y l2, l = l1 ++ y :: l2 ∧ P y ∧ ∀ z, z ∈ l1 → ¬ P z.
Proof.
  induction l as [|a l IH]; intros Hx HP; [by apply elem_of_nil in Hx|].
  destruct (decide (P a)) as [Ha|Hna].
  - exists [], a, l. split_and!; [done..|]. intros z Hz. by apply elem_of_nil in Hz.
  - apply elem_of_cons in Hx as [->|Hx]; [done|].
    destruct (IH Hx HP) as (l1 & y & l2 & -> & Hy & Hl1).
    exists (a :: l1), y, l2. split_and!; [done..|].
    intros z [->|Hz]%elem_of_cons; [done|by apply Hl1].
Qed.

Section collect_extras.
Context `{!data.Decls, !labels.Decls, !model.Decls, !models.Decls}.

Implicit Types (validator : notificaitonSettingsValidator) (store : autogenRuleStore).
Implicit Types (m : gmap data.Fingerprint models.NotificationSettings).
Implicit Types (s setting : models.NotificationSettings).
Implicit Types (ss : list models.NotificationSettings).
Implicit Types (settings : list (models.AlertRuleKey * list models.NotificationSettings)).
Implicit Types (fp : data.Fingerprint).

(** The first object with a fingerprint, in a map without it, is kept. *)
Lemma keep_first_first m ss1 ss2 s :
  m !! models.Fingerprint s = None →
  (∀ x, x ∈ ss1 → models.Fingerprint x ≠ models.Fingerprint s) →
  foldl keep_first m (ss1 ++ s :: ss2) !! models.Fingerprint s = Some s.
Proof.
  intros Hm Hss1. rewrite foldl_app. simpl. apply keep_first_stays.
  unfold keep_first at 1.
  destruct (foldl keep_first m ss1 !! models.Fingerprint s) as [s'|] eqn:Hs';
    [|by rewrite lookup_insert_eq].
  apply keep_first_origin in Hs' as [Hs'|[Hin Heq]]; [congruence|].
  by destruct (Hss1 s' Hin).
Qed.

(** An entry of the collected map is an accepted object of the listing. *)
Lemma collect_origin validator settings fp s :
  (collect validator settings).1 !! fp = Some s →
  fp = models.Fingerprint s ∧ s ∈ valid_objects validator settings.
Proof.
  rewrite collect_eq. simpl. intros [Hempty|[Hin ->]]%keep_first_origin; [|done].
  by rewrite lookup_empty in Hempty.
Qed.

(** X11: the collected map never holds a rejected object or one that was
    not listed: every entry is an accepted object of some rule, stored
    under its own fingerprint. *)
Theorem collect_sound validator settings fp s :
  (collect validator settings).1 !! fp = Some s →
  fp = models.Fingerprint s ∧ Validate validator s = None ∧
  ∃ ruleKey ruleSettings, (ruleKey, ruleSettings) ∈ settings ∧ s ∈ ruleSettings.
Proof.
  intros [-> Hin]%collect_origin. split; [done|]. by apply elem_of_valid_objects.
Qed.

(** X12: the first one wins: the entry of a fingerprint is the first
    accepted object with that fingerprint, in the order of the listing, and
    only such an object is an entry. *)
Theorem collect_first_seen validator settings fp s :
  (collect validator settings).1 !! fp = Some s ↔
  ∃ before after,
    valid_objects validator settings = before ++ s :: after ∧
    models.Fingerprint s = fp ∧
    ∀ x, x ∈ before → models.Fingerprint x ≠ fp.
Proof.
  rewrite collect_eq. simpl. split.
  - intros Hs. pose proof Hs as [Hempty|[Hin ->]]%keep_first_origin;
      [by rewrite lookup_empty in Hempty|].
    destruct (first_with (λ x, models.Fingerprint x = models.Fingerprint s) _ s Hin eq_refl)
      as (before & y & after & Hsplit & Hy & Hbefore).
    assert (foldl keep_first ∅ (valid_objects validator settings) !! models.Fingerprint y
            = Some y) as Hfirst.
    { rewrite Hsplit. apply keep_first_first; [apply lookup_empty|].
      intros x Hx. rewrite Hy. by apply Hbefore. }
    rewrite Hy, Hs in Hfirst. injection Hfirst as <-. by exists before, after.
  - intros (before & after & Hsplit & <- & Hbefore). rewrite Hsplit.
    apply keep_first_first; [apply lookup_empty|done].
Qed.

(** Without two accepted objects of one fingerprint, the map holds exactly
    the accepted objects. *)
Lemma collect_lookup_inj validator settings fp s :
  (∀ x y, x ∈ valid_objects validator settings → y ∈ valid_objects validator settings →
          models.Fingerprint x = models.Fingerprint y → x = y) →
  (collect validator settings).1 !! fp = Some s ↔
  s ∈ valid_objects validator settings ∧ models.Fingerprint s = fp.
Proof.
  intros Hinj. rewrite collect_eq. simpl. split.
  - intros [Hempty|[Hin ->]]%keep_first_origin; [by rewrite lookup_empty in Hempty|done].
  - intros [Hin <-].
    destruct (keep_first_covers ∅ _ s Hin) as [s' Hs']. rewrite Hs'. f_equal.
    pose proof Hs' as [Hempty|[Hin' Heq]]%keep_first_origin;
      [by rewrite lookup_empty in Hempty|].
    by apply Hinj.
Qed.

Lemma valid_objects_Permutation validator settings1 settings2 :
  settings1 ≡ₚ settings2 → valid_objects validator settings1 ≡ₚ valid_objects validator settings2.
Proof. intros Hperm. unfold valid_objects. by rewrite Hperm. Qed.

Lemma collect_Permutation validator settings1 settings2 :
  settings1 ≡ₚ settings2 →
  (∀ x y, x ∈ valid_objects validator settings1 → y ∈ valid_objects validator settings1 →
          models.Fingerprint x = models.Fingerprint y → x = y) →
  (collect validator settings1).1 = (collect validator settings2).1.
Proof.
  intros Hperm%(valid_objects_Permutation validator) Hinj1.
  assert (∀ x y, x ∈ valid_objects validator settings2 → y ∈ valid_objects validator settings2 →
            models.Fingerprint x = models.Fingerprint y → x = y) as Hinj2.
  { intros x y. rewrite <-!Hperm. apply Hinj1. }
  apply map_eq. intros fp. apply option_eq. intros s.
  rewrite (collect_lookup_inj _ _ _ _ Hinj1), (collect_lookup_inj _ _ _ _ Hinj2).
  by rewrite Hperm.
Qed.

(** X13: when no two accepted objects of different content share a
    fingerprint, the order in which the rules are listed does not matter:
    the collected map is the same. *)
Theorem collect_order validator settings1 settings2 :
  settings1 ≡ₚ settings2 →
  (∀ x y, x ∈ valid_objects validator settings1 → y ∈ valid_objects validator settings1 →
          models.Fingerprint x = models.Fingerprint y → x = y) →
  (collect validator settings1).1 = (collect validator settings2).1.
Proof. apply collect_Permutation. Qed.

(** X14: under the same condition the synthesis as a whole does not depend
    on the order of the listing nor on the order in which the keys of the
    collected map are enumerated: route, hash and error are the same, and
    the same objects are logged. *)
Theorem newAutogeneratedRoute_order orgId store1 store2 defaultReceiver validator
    (mapsKeys1 mapsKeys2 :
       gmap data.Fingerprint models.NotificationSettings → list data.Fingerprint)
    settings1 settings2 :
  ListNotificationSettings store1 orgId = (settings1, None) →
  ListNotificationSettings store2 orgId = (settings2, None) →
  settings1 ≡ₚ settings2 →
  (∀ x y, x ∈ valid_objects validator settings1 → y ∈ valid_objects validator settings1 →
          models.Fingerprint x = models.Fingerprint y → x = y) →
  (∀ m, maps_Keys m (mapsKeys1 m)) →
  (∀ m, maps_Keys m (mapsKeys2 m)) →
  (newAutogeneratedRoute orgId store1 defaultReceiver validator mapsKeys1).1 =
  (newAutogeneratedRoute orgId store2 defaultReceiver validator mapsKeys2).1 ∧
  (newAutogeneratedRoute orgId store1 defaultReceiver validator mapsKeys1).2 ≡ₚ
  (newAutogeneratedRoute orgId store2 defaultReceiver validator mapsKeys2).2.
Proof.
  intros Hlist1 Hlist2 Hperm Hinj Hkeys1 Hkeys2.
  pose proof (collect_Permutation validator settings1 settings2 Hperm Hinj) as Hmap.
  unfold newAutogeneratedRoute. rewrite Hlist1, Hlist2.
  rewrite !collect_eq in *. simpl in Hmap. rewrite <-Hmap.
  set (m := foldl keep_first ∅ (valid_objects validator settings1)).
  rewrite (generateRouteFromSettings_sorted defaultReceiver m (mapsKeys1 m) (mapsKeys2 m))
    by (by eapply maps_Keys_unique).
  assert (rejected validator settings1 ≡ₚ rejected validator settings2) as Hlog.
  { unfold rejected. by rewrite Hperm. }
  case_decide; [done|].
  by destruct (generateRouteFromSettings _ _ _) as [ar [e|]].
Qed.

(** X15: after a listing that succeeds, the synthesis returns the empty
    result (no route, hash zero, no error) exactly when no listed object is
    accepted. *)
Theorem newAutogeneratedRoute_empty_iff orgId store defaultReceiver validator mapsKeys settings :
  ListNotificationSettings store orgId = (settings, None) →
  (newAutogeneratedRoute orgId store defaultReceiver validator mapsKeys).1 =
    (autogeneratedRoute_zero, None) ↔
  ∀ ruleKey ruleSettings s,
    (ruleKey, ruleSettings) ∈ settings → s ∈ ruleSettings → Validate validator s ≠ None.
Proof.
  intros Hlist. unfold newAutogeneratedRoute. rewrite Hlist, collect_eq.
  assert (valid_objects validator settings = [] ↔
          ∀ ruleKey ruleSettings s,
            (ruleKey, ruleSettings) ∈ settings → s ∈ ruleSettings →
            Validate validator s ≠ None) as <-.
  { split.
    - intros Hnil ruleKey ss s Hrule Hs Hvalid.
      assert (s ∈ valid_objects validator settings) as Hin
        by (apply elem_of_valid_objects; eauto).
      rewrite Hnil in Hin. by apply elem_of_nil in Hin.
    - intros Hnone. destruct (valid_objects validator settings) as [|x xs] eqn:Hvalid; [done|].
      assert (x ∈ valid_objects validator settings) as Hin by (rewrite Hvalid; by left).
      apply elem_of_valid_objects in Hin as (Hx & ruleKey & ss & Hrule & Hin).
      by destruct (Hnone ruleKey ss x). }
  case_decide as Hsize.
  - split; [|done]. intros _. apply map_size_empty_inv in Hsize.
    destruct (valid_objects validator settings) as [|x xs] eqn:Hvalid; [done|].
    destruct (keep_first_covers ∅ (x :: xs) x) as [s' Hs']; [by left|].
    rewrite Hsize in Hs'. by rewrite lookup_empty in Hs'.
  - destruct (generateRouteFromSettings _ _ _) as [ar [e|]] eqn:Hgen; simpl.
    + split; [discriminate|]. intros Hnil. rewrite Hnil in Hsize. by destruct Hsize.
    + split.
      * intros [= ->]. apply generateRouteFromSettings_root in Hgen as (r & Hr & _).
        discriminate Hr.
      * intros Hnil. rewrite Hnil in Hsize. by destruct Hsize.
Qed.

(** X16: a route that the synthesis returns has nodes for receivers of
    accepted objects only: a receiver that only rejected objects name gets
    no node; and without accepted objects that share a fingerprint, every
    accepted object has the node of its receiver. *)
Theorem newAutogeneratedRoute_receivers orgId store defaultReceiver validator mapsKeys
    settings r (F : data.Fingerprint) :
  ListNotificationSettings store orgId = (settings, None) →
  (∀ m, maps_Keys m (mapsKeys m)) →
  (newAutogeneratedRoute orgId store defaultReceiver validator mapsKeys).1 =
    ({| Route := Some r; Fingerprint := F |}, None) →
  (∀ name, name ∈ receivers r →
     ∃ s, s ∈ valid_objects validator settings ∧ models.Receiver s = name) ∧
  ((∀ x y, x ∈ valid_objects validator settings → y ∈ valid_objects validator settings →
           models.Fingerprint x = models.Fingerprint y → x = y) →
   ∀ s, s ∈ valid_objects validator settings → models.Receiver s ∈ receivers r).
Proof.
  intros Hlist Hkeys. unfold newAutogeneratedRoute. rewrite Hlist.
  destruct (collect validator settings) as [m log] eqn:Hcollect.
  assert (m = (collect validator settings).1) as Hm by (by rewrite Hcollect).
  case_decide; [discriminate|].
  destruct (generateRouteFromSettings _ _ _) as [ar [e|]] eqn:Hgen; [discriminate|].
  intros [= ->]. split.
  - intros name (fp & s & Hs & <-)%(receivers_of_map _ _ _ _ _ name (Hkeys m) Hgen).
    exists s. split; [|done]. rewrite Hm in Hs. by apply collect_origin in Hs as [_ Hin].
  - intros Hinj s Hs.
    apply (receivers_of_map _ _ _ _ _ _ (Hkeys m) Hgen).
    exists (models.Fingerprint s), s. split; [|done]. rewrite Hm.
    by apply collect_lookup_inj.
Qed.

End collect_extras.

(** ** More on the merge *)

(** X18: the merge does not look for an earlier merge: merging the same
    generated route a second time puts it before the root's children a second
    time. *)
Theorem AddToConfig_twice {Other : Type} (a : autogeneratedRoute)
    (generated root : definitions.Route) (config : definitions.PostableUserConfig Other) :
  Route a = Some generated →
  definitions.Config_Route (definitions.AlertmanagerConfig config) = Some root →
  ∃ a' config1 config2 root2,
    AddToConfig (Some a) config = (Some a', config1, None) ∧
    AddToConfig (Some a') config1 = (Some a', config2, None) ∧
    definitions.Config_Route (definitions.AlertmanagerConfig config2) = Some root2 ∧
    definitions.Routes root2 =
      definitions.set_Receiver generated (definitions.Receiver root) ::
      definitions.set_Receiver generated (definitions.Receiver root) ::
      definitions.Routes root.
Proof.
  intros Hgen Hroot. unfold AddToConfig. rewrite Hroot, Hgen. simpl.
  eexists _, _, _, _. split_and!; reflexivity.
Qed.

(** ** The merge on pointers *)

Lemma mapM_ext_in {A B : Type} (f g : A → option B) (l : list A) :
  (∀ x, x ∈ l → f x = g x) → mapM f l = mapM g l.
Proof.
  induction l as [|x l IH]; intros Hext; [done|].
  simpl. rewrite (Hext x) by by left.
  rewrite IH; [done|]. intros y Hy. apply Hext. by right.
Qed.

(** A write to nodes that [load] does not visit is not seen. *)
Lemma load_frame (h h' : gmap nat mem.Route) (depth p : nat) :
  (∀ q, q ∈ visited h depth p → h' !! q = h !! q) →
  load h' depth p = load h depth p.
Proof.
  revert p. induction depth as [|depth IH]; intros p Hsame; [done|].
  simpl in *. rewrite (Hsame p) by by left.
  destruct (h !! p) as [r|] eqn:Hp; [|done]. simpl.
  rewrite (mapM_ext_in (load h' depth) (load h depth)); [done|].
  intros c Hc. apply IH. intros q Hq. apply Hsame. right.
  apply list_elem_of_bind. eauto.
Qed.

Lemma load_S (h : gmap nat mem.Route) (depth p : nat) :
  load h (S depth) p =
  r ← h !! p;
  routes ← mapM (load h depth) (mem.Routes r);
  Some (definitions.mkRoute (mem.Receiver r) (mem.ObjectMatchers r) (mem.Continue r) routes
          (mem.GroupByStr r) (mem.MuteTimeIntervals r) (mem.GroupWait r)
          (mem.GroupInterval r) (mem.RepeatInterval r)).
Proof. done. Qed.

(** A tree that is read at some depth is read at every greater depth. *)
Lemma load_mono (h : gmap nat mem.Route) (depth p : nat) (t : definitions.Route) :
  load h depth p = Some t → load h (S depth) p = Some t.
Proof.
  revert p t. induction depth as [|depth IH]; intros p t; [done|].
  intros Ht. rewrite load_S in Ht. rewrite load_S.
  destruct (h !! p) as [r|]; [|done]. cbn [mbind option_bind] in *.
  destruct (mapM (load h depth) (mem.Routes r)) as [routes|] eqn:Hroutes; [|done].
  apply mapM_Some in Hroutes.
  assert (mapM (load h (S depth)) (mem.Routes r) = Some routes) as ->; [|done].
  apply mapM_Some. eapply Forall2_impl; [exact Hroutes|]. intros c tc. apply IH.
Qed.

(** X17: on pointers, the merge writes two fields and nothing else.
    Without a root route, or without a generated route, the memory is as
    before.  Otherwise no error is returned, every node other than the root
    and the generated route is as before, the root keeps its own fields and
    gets the generated route before its former children, and the generated
    route keeps all but its receiver, which becomes the one of the root.
    So a former child of the root keeps its receiver unless it is the
    generated route itself. *)
Theorem AddToConfig_mem_writes (h h' : gmap nat mem.Route) (ar : option (option nat))
    (configRoute : option nat) (err : option error) :
  AddToConfig_mem h ar configRoute = (h', err) →
  (configRoute = None → h' = h ∧ err = Some no_root_error) ∧
  (is_Some configRoute → ar = None ∨ ar = Some None → h' = h ∧ err = None) ∧
  ∀ root generated r g,
    configRoute = Some root → ar = Some (Some generated) →
    h !! root = Some r → h !! generated = Some g →
    err = None ∧
    (∀ p, p ≠ root → p ≠ generated → h' !! p = h !! p) ∧
    (∃ r', h' !! root = Some r' ∧
           mem.Routes r' = generated :: mem.Routes r ∧
           mem.set_Routes r' (mem.Routes r) = r) ∧
    (∃ g', h' !! generated = Some g' ∧
           mem.Receiver g' = mem.Receiver r ∧
           (generated ≠ root → mem.set_Receiver g' (mem.Receiver g) = g)) ∧
    ∀ c rc, c ∈ mem.Routes r → h !! c = Some rc → c ≠ root →
      ∃ rc', h' !! c = Some rc' ∧
             mem.Receiver rc' =
               if decide (c = generated) then mem.Receiver r else mem.Receiver rc.
Proof.
  unfold AddToConfig_mem. intros Hcall. split_and!.
  - intros ->. by injection Hcall as <- <-.
  - intros [root ->] [->| ->]; by injection Hcall as <- <-.
  - intros root generated r g -> -> Hroot Hgen. rewrite Hroot in Hcall.
    injection Hcall as <- <-.
    assert (∀ p, p ≠ root → p ≠ generated →
              alter (λ r0, mem.set_Routes r0 (generated :: mem.Routes r0)) root
                (alter (λ g0, mem.set_Receiver g0 (mem.Receiver r)) generated h) !! p = h !! p)
      as Hother.
    { intros p Hp1 Hp2. by rewrite !lookup_alter_ne. }
    assert (∀ p rp, p ≠ root → h !! p = Some rp →
              ∃ rp', alter (λ r0, mem.set_Routes r0 (generated :: mem.Routes r0)) root
                       (alter (λ g0, mem.set_Receiver g0 (mem.Receiver r)) generated h) !! p
                     = Some rp' ∧
                     mem.Receiver rp' =
                       (if decide (p = generated) then mem.Receiver r else mem.Receiver rp) ∧
                     (p = generated → mem.set_Receiver rp' (mem.Receiver rp) = rp))
      as Hnode.
    { intros p rp Hp Hrp. rewrite lookup_alter_ne by done.
      destruct (decide (p = generated)) as [->|Hne].
      - rewrite lookup_alter_eq, Hrp. simpl. eexists. split_and!; [done..|].
        intros _. by destruct rp.
      - rewrite lookup_alter_ne by done. exists rp. by split_and!. }
    split_and!; [done|exact Hother| | |].
    + rewrite lookup_alter_eq. destruct (decide (generated = root)) as [->|Hne].
      * rewrite lookup_alter_eq, Hroot. simpl. eexists. split_and!; [done..|]. by destruct r.
      * rewrite lookup_alter_ne, Hroot by done. simpl. eexists. split_and!; [done..|].
        by destruct r.
    + destruct (decide (generated = root)) as [->|Hne].
      * rewrite !lookup_alter_eq, Hroot. simpl. eexists. by split_and!.
      * destruct (Hnode generated g Hne Hgen) as (g' & Hg' & Hrecv & Hrest).
        exists g'. rewrite decide_True in Hrecv by done. split_and!; [done..|]. intros _. by apply Hrest.
    + intros c rc _ Hc Hne. destruct (Hnode c rc Hne Hc) as (rc' & Hrc' & Hrecv & _). eauto.
Qed.

(** In the sample memory the node 1, merged earlier, is merged again: the
    root then has the children 1, 1 and 2, and the receiver of the node 1,
    a former child, is now the one of the root. *)
Lemma AddToConfig_mem_writes_witness :
  ∃ h' r' g',
    AddToConfig_mem sample_mem.memory (Some (Some 1%nat)) (Some 0%nat) = (h', None) ∧
    h' !! 0%nat = Some r' ∧ mem.Routes r' = [1%nat; 1%nat; 2%nat] ∧
    h' !! 1%nat = Some g' ∧ mem.Receiver g' = "other" ∧
    h' !! 2%nat = sample_mem.memory !! 2%nat.
Proof.
  destruct (AddToConfig_mem sample_mem.memory (Some (Some 1%nat)) (Some 0%nat))
    as [h' err] eqn:Hcall.
  destruct (AddToConfig_mem_writes _ _ _ _ _ Hcall) as (_ & _ & Hwrites).
  destruct (Hwrites 0%nat 1%nat (sample_mem.node "other" [1%nat; 2%nat])
              (sample_mem.node "default" []) eq_refl eq_refl eq_refl eq_refl)
    as (-> & Hother & (r' & Hr' & Hroutes & _) & (g' & Hg' & Hrecv & _) & _).
  exists h', r', g'. split_and!; try done. by apply Hother.
Defined.

(** X19: the merge on values is the merge on pointers read as trees, when
    the generated route is a node of its own: if neither the root nor the
    generated route is among the nodes under the former children of the
    root or under the children of the generated route, the trees behind the
    two pointers after the merge on pointers are the ones that [AddToConfig]
    returns for the trees behind them before. *)
Theorem AddToConfig_mem_values {Other : Type} (h : gmap nat mem.Route)
    (root generated depth : nat) (r g : mem.Route) (rootTree generatedTree : definitions.Route)
    (F : data.Fingerprint) (other other' : Other) :
  h !! root = Some r → h !! generated = Some g → generated ≠ root →
  (∀ c, c ∈ mem.Routes r ++ mem.Routes g →
        (root ∉ visited h depth c) ∧ (generated ∉ visited h depth c)) →
  load h (S depth) root = Some rootTree →
  load h (S depth) generated = Some generatedTree →
  ∃ generatedTree' rootTree',
    AddToConfig (Some {| Route := Some generatedTree; Fingerprint := F |})
      {| definitions.AlertmanagerConfig :=
           {| definitions.Config_Route := Some rootTree; definitions.Config_other := other |};
         definitions.UserConfig_other := other' |} =
      (Some {| Route := Some generatedTree'; Fingerprint := F |},
       {| definitions.AlertmanagerConfig :=
            {| definitions.Config_Route := Some rootTree'; definitions.Config_other := other |};
          definitions.UserConfig_other := other' |}, None) ∧
    load (AddToConfig_mem h (Some (Some generated)) (Some root)).1 (S depth) generated =
      Some generatedTree' ∧
    load (AddToConfig_mem h (Some (Some generated)) (Some root)).1 (S (S depth)) root =
      Some rootTree'.
Proof.
  intros Hroot Hgen Hne Hsep Hload_root Hload_gen.
  eexists _, _. split; [reflexivity|].
  pose (h' := alter (λ r0, mem.set_Routes r0 (generated :: mem.Routes r0)) root
                (alter (λ g0, mem.set_Receiver g0 (mem.Receiver r)) generated h)).
  assert ((AddToConfig_mem h (Some (Some generated)) (Some root)).1 = h') as ->.
  { unfold AddToConfig_mem. by rewrite Hroot. }
  assert (∀ c, c ∈ mem.Routes r ++ mem.Routes g → load h' depth c = load h depth c) as Hframe.
  { intros c Hc. apply load_frame. intros q Hq. destruct (Hsep c Hc) as [Hr Hg].
    assert (q ≠ root) by (by intros ->). assert (q ≠ generated) by (by intros ->).
    unfold h'. by rewrite !lookup_alter_ne. }
  assert (h' !! generated = Some (mem.set_Receiver g (mem.Receiver r))) as Hgen'.
  { unfold h'. rewrite lookup_alter_ne by done. by rewrite lookup_alter_eq, Hgen. }
  assert (h' !! root = Some (mem.set_Routes r (generated :: mem.Routes r))) as Hroot'.
  { unfold h'. rewrite lookup_alter_eq, lookup_alter_ne by done. by rewrite Hroot. }
  rewrite load_S, Hroot in Hload_root. rewrite load_S, Hgen in Hload_gen.
  simpl in Hload_root, Hload_gen.
  destruct (mapM (load h depth) (mem.Routes r)) as [rootRoutes|] eqn:Hchildren_r;
    [|discriminate]. injection Hload_root as <-.
  destruct (mapM (load h depth) (mem.Routes g)) as [genRoutes|] eqn:Hchildren_g;
    [|discriminate]. injection Hload_gen as <-.
  assert (load h' (S depth) generated =
          Some (definitions.mkRoute (mem.Receiver r) (mem.ObjectMatchers g) (mem.Continue g)
                  genRoutes (mem.GroupByStr g) (mem.MuteTimeIntervals g) (mem.GroupWait g)
                  (mem.GroupInterval g) (mem.RepeatInterval g))) as Hgen_tree.
  { rewrite load_S, Hgen'. cbn [mbind option_bind mem.set_Receiver mem.Routes].
    rewrite (mapM_ext_in (load h' depth) (load h depth)), Hchildren_g; [done|].
    intros c Hc. apply Hframe, elem_of_app. by right. }
  split; [exact Hgen_tree|].
  rewrite load_S, Hroot'. cbn [mbind option_bind mem.set_Routes mem.Routes mapM].
  rewrite Hgen_tree. cbn [mbind option_bind].
  assert (mapM (load h' (S depth)) (mem.Routes r) = Some rootRoutes) as ->; [|done].
  apply mapM_Some. apply mapM_Some in Hchildren_r.
  apply Forall2_same_length_lookup. split; [by eapply Forall2_length|].
  intros i c tc Hc Htc. apply load_mono. rewrite Hframe.
  - exact (Forall2_lookup_lr _ _ _ _ _ _ Hchildren_r Hc Htc).
  - apply elem_of_app. left. by eapply list_elem_of_lookup_2.
Qed.

(** ** The definitions at work on the concrete instance *)

#[local] Existing Instances
  sample.data_decls sample.labels_decls sample.model_decls sample.models_decls.

(** Inserting the entries in the other order gives the same map, and the
    keys enumerated in either order give the same route. *)
Lemma generateRouteFromSettings_deterministic_witness :
  let a := sample.Fingerprint sample.slack30 in
  let b := sample.Fingerprint sample.email in
  generateRouteFromSettings "grafana-default-email"
    (<[a := sample.slack30]> (<[b := sample.email]> ∅)) [a; b] =
  generateRouteFromSettings "grafana-default-email"
    (<[b := sample.email]> (<[a := sample.slack30]> ∅)) [b; a].
Proof.
  intros a b.
  apply generateRouteFromSettings_deterministic.
  - intros fp. assert (a ≠ b) as Hne by (vm_compute; discriminate).
    by rewrite insert_insert_ne.
  - unfold maps_Keys. vm_compute. first [reflexivity | apply Permutation_swap].
  - unfold maps_Keys. vm_compute. first [reflexivity | apply Permutation_swap].
Defined.

(** The tree of [slack30] and [email]: two nodes in layer 2. *)
Lemma generateRouteFromSettings_Continue_witness :
  ∃ r F,
    generateRouteFromSettings "grafana-default-email" sample.settings
      (sample.mapsKeys sample.settings) = ({| Route := Some r; Fingerprint := F |}, None) ∧
    length (definitions.Routes r) = 2%nat ∧
    definitions.Continue r = false ∧
    ∀ b, b ∈ definitions.Routes r →
      definitions.Continue b = true ∧
      ∀ l, l ∈ definitions.Routes b → definitions.Continue l = false.
Proof.
  eexists _, _. split; [vm_compute; reflexivity|]. split; [reflexivity|].
  eapply (generateRouteFromSettings_Continue "grafana-default-email" sample.settings
            (sample.mapsKeys sample.settings)).
  vm_compute. reflexivity.
Defined.

(** [email] is all default: it has its node in layer 2, and the one node of
    layer 3 is the one of [slack30]. *)
Lemma generateRouteFromSettings_all_default_witness :
  ∃ r F,
    generateRouteFromSettings "grafana-default-email" sample.settings
      (sample.mapsKeys sample.settings) = ({| Route := Some r; Fingerprint := F |}, None) ∧
    (∃ b, b ∈ definitions.Routes r ∧ definitions.Receiver b = "email") ∧
    length (thirdTier r) = 1%nat.
Proof.
  eexists _, _. split; [vm_compute; reflexivity|].
  edestruct (generateRouteFromSettings_all_default "grafana-default-email" sample.settings
               (sample.mapsKeys sample.settings) (sample.Fingerprint sample.email) sample.email)
    as (Hbranch & _ & Hcount).
  - unfold maps_Keys, sample.mapsKeys. reflexivity.
  - vm_compute. reflexivity.
  - reflexivity.
  - vm_compute. reflexivity.
  - split; [exact Hbranch|]. rewrite Hcount. vm_compute. reflexivity.
Defined.

(** Three copies of [slack30] under two rules are collected once. *)
Lemma collect_unique_witness :
  let settings := [(sample.rule "a", [sample.slack30; sample.slack30]);
                   (sample.rule "b", [sample.slack30])] in
  (collect sample.validator settings).1 =
    {[models.Fingerprint sample.slack30 := sample.slack30]} ∧
  size (collect sample.validator settings).1 = 1%nat.
Proof.
  intros settings.
  assert ((sample.rule "a", [sample.slack30; sample.slack30]) ∈ settings) as Hrule.
  { apply list_elem_of_here. }
  assert (sample.slack30 ∈ [sample.slack30; sample.slack30]) as Hs.
  { apply list_elem_of_here. }
  assert (∀ ruleKey' ruleSettings' s',
            (ruleKey', ruleSettings') ∈ settings → s' ∈ ruleSettings' → s' = sample.slack30)
    as Hcopies.
  { intros ruleKey' ruleSettings' s' Hrule' Hs'. unfold settings in Hrule'.
    rewrite !elem_of_cons, elem_of_nil in Hrule'.
    destruct Hrule' as [Heq|[Heq|[]]]; injection Heq as -> ->;
      rewrite !elem_of_cons, elem_of_nil in Hs'; intuition. }
  exact (proj2 (proj2 (proj2 (collect_unique sample.validator settings)))
           (sample.rule "a") [sample.slack30; sample.slack30] sample.slack30
           Hrule Hs eq_refl Hcopies).
Defined.

(** A listing with a rejected object only gives the empty result. *)
Lemma newAutogeneratedRoute_empty_witness :
  (newAutogeneratedRoute 1 sample.store_rejected "grafana-default-email" sample.validator
     sample.mapsKeys).1 = ({| Route := None; Fingerprint := 0 |}, None).
Proof.
  apply (newAutogeneratedRoute_empty 1 sample.store_rejected "grafana-default-email"
           sample.validator sample.mapsKeys [(sample.rule "a", [sample.nobody]); (sample.rule "b", [])]).
  - reflexivity.
  - vm_compute. reflexivity.
Defined.

(** The failing store gives its error, wrapped; the rejected object of the
    mixed listing is logged, and no error is returned. *)
Lemma newAutogeneratedRoute_failures_witness :
  newAutogeneratedRoute 1 sample.store_down "grafana-default-email" sample.validator
    sample.mapsKeys =
    (({| Route := None; Fingerprint := 0 |},
      Some (fmt_Errorf_w "failed to list alert rules: %w" (errors_New "database is locked"))),
     []) ∧
  (newAutogeneratedRoute 1 sample.store_mixed "grafana-default-email" sample.validator
     sample.mapsKeys).1.2 = None ∧
  (newAutogeneratedRoute 1 sample.store_mixed "grafana-default-email" sample.validator
     sample.mapsKeys).2 =
    [skipped (sample.rule "a") (errors_New "receiver must be specified")].
Proof.
  split; [|split].
  - apply (proj1 (newAutogeneratedRoute_failures 1 sample.store_down "grafana-default-email"
                    sample.validator sample.mapsKeys) []).
    reflexivity.
  - eapply (proj2 (newAutogeneratedRoute_failures 1 sample.store_mixed "grafana-default-email"
                     sample.validator sample.mapsKeys)).
    + reflexivity.
    + intros n v. eexists. reflexivity.
  - etrans.
    + eapply (proj2 (newAutogeneratedRoute_failures 1 sample.store_mixed "grafana-default-email"
                       sample.validator sample.mapsKeys)).
      reflexivity.
    + reflexivity.
Defined.

(** Two identical settings without options, under two rules: one node in
    layer 2, none in layer 3. *)
Example scenario_identical_defaults :
  ∃ branch F,
    (newAutogeneratedRoute 1
       {| ListNotificationSettings := λ _,
            ([(sample.rule "a", [sample.slack]); (sample.rule "b", [sample.slack])], None) |}
       "grafana-default-email" sample.validator sample.mapsKeys).1 =
      ({| Route := Some (definitions.mkRoute "grafana-default-email"
                           [{| labels.Type_ := labels.MatchEqual;
                               labels.Name := "__grafana_autogenerated__";
                               labels.Value := "true" |}]
                           false [branch] [] [] None None None);
          Fingerprint := F |}, None) ∧
    definitions.Receiver branch = "slack" ∧ definitions.Routes branch = [].
Proof. eexists _, _. split; [vm_compute; reflexivity|]. by split. Qed.

(** [slack] with a group wait of 30s and [email] without options: two nodes
    in layer 2, in the order of the fingerprints; the node of [slack] has
    one child, which carries the group wait, the node of [email] has none. *)
Example scenario_slack30_email :
  ∃ r F,
    (newAutogeneratedRoute 1 sample.store "grafana-default-email" sample.validator
       sample.mapsKeys).1 = ({| Route := Some r; Fingerprint := F |}, None) ∧
    receivers r = ["email"; "slack"] ∧
    (length ∘ definitions.Routes) <$> definitions.Routes r = [0; 1]%nat ∧
    definitions.GroupWait <$> thirdTier r = [Some 30000000000%Z].
Proof. eexists _, _. split; [vm_compute; reflexivity|]. by repeat split. Qed.

(** ** The further properties on the concrete instance *)

(** The value 1 and the value [1 + 2^64] have the same eight bytes. *)
Lemma PutUint64_inj_witness :
  binary.PutUint64 1 = binary.PutUint64 (1 + 2 ^ 64) ∧ (1 : N) = 1.
Proof.
  destruct (PutUint64_inj 1 (1 + 2 ^ 64)) as (_ & _ & Hiff & _).
  destruct (PutUint64_inj 1 1) as (_ & _ & _ & Hinj).
  split.
  - apply Hiff. reflexivity.
  - apply Hinj; reflexivity.
Defined.

(** The tree of [slack30] and [email] has the nodes of [email] and of
    [slack], in this order. *)
Lemma generateRouteFromSettings_receivers_witness :
  ∃ r F,
    generateRouteFromSettings "grafana-default-email" sample.settings
      (sample.mapsKeys sample.settings) = ({| Route := Some r; Fingerprint := F |}, None) ∧
    NoDup (receivers r) ∧ receivers r = ["email"; "slack"].
Proof.
  eexists _, _. split; [vm_compute; reflexivity|].
  edestruct (generateRouteFromSettings_receivers "grafana-default-email" sample.settings
               (sample.mapsKeys sample.settings)) as [Hnodup Horder].
  - vm_compute. reflexivity.
  - split; [exact Hnodup|reflexivity].
Defined.

Lemma generateRouteFromSettings_receivers_exact_witness :
  ∃ r F,
    generateRouteFromSettings "grafana-default-email" sample.settings
      (sample.mapsKeys sample.settings) = ({| Route := Some r; Fingerprint := F |}, None) ∧
    ("email" ∈ receivers r ↔
     ∃ fp s, sample.settings !! fp = Some s ∧ models.Receiver s = "email").
Proof.
  eexists _, _. split; [vm_compute; reflexivity|].
  eapply (generateRouteFromSettings_receivers_exact "grafana-default-email" sample.settings
            (sample.mapsKeys sample.settings)).
  - unfold maps_Keys, sample.mapsKeys. reflexivity.
  - vm_compute. reflexivity.
Defined.

(** [slack30] has its node under the node of [slack]. *)
Lemma generateRouteFromSettings_leaf_present_witness :
  ∃ r F b settingMatcher,
    generateRouteFromSettings "grafana-default-email" sample.settings
      (sample.mapsKeys sample.settings) = ({| Route := Some r; Fingerprint := F |}, None) ∧
    b ∈ definitions.Routes r ∧ definitions.Receiver b = "slack" ∧
    settingRoute_new sample.slack30 settingMatcher ∈ definitions.Routes b.
Proof.
  edestruct (generateRouteFromSettings_leaf_present "grafana-default-email" sample.settings
               (sample.mapsKeys sample.settings) (sample.Fingerprint sample.slack30)
               sample.slack30)
    as (b & settingMatcher & Hb & Hname & _ & Hleaf).
  - unfold maps_Keys, sample.mapsKeys. reflexivity.
  - vm_compute. reflexivity.
  - reflexivity.
  - vm_compute. reflexivity.
  - eexists _, _, b, settingMatcher. split; [vm_compute; reflexivity|].
    split_and!; assumption.
Defined.

(** The one node of layer 3 of that tree. *)
Lemma generateRouteFromSettings_leaf_shape_witness :
  ∃ r F b l,
    generateRouteFromSettings "grafana-default-email" sample.settings
      (sample.mapsKeys sample.settings) = ({| Route := Some r; Fingerprint := F |}, None) ∧
    definitions.Routes r !! 1%nat = Some b ∧ definitions.Routes b !! 0%nat = Some l ∧
    definitions.Receiver l = definitions.Receiver b ∧ definitions.Routes l = [].
Proof.
  eexists _, _, _, _. split; [vm_compute; reflexivity|].
  split; [reflexivity|]. split; [reflexivity|].
  edestruct (generateRouteFromSettings_leaf_shape "grafana-default-email" sample.settings
               (sample.mapsKeys sample.settings)) as (Hname & Hleaf & _).
  - vm_compute. reflexivity.
  - apply (list_elem_of_lookup_2 _ 1%nat). reflexivity.
  - apply (list_elem_of_lookup_2 _ 0%nat). reflexivity.
  - split; [exact Hname|exact Hleaf].
Defined.

Lemma generateRouteFromSettings_node_shape_witness :
  ∃ r F,
    generateRouteFromSettings "grafana-default-email" sample.settings
      (sample.mapsKeys sample.settings) = ({| Route := Some r; Fingerprint := F |}, None) ∧
    definitions.Receiver r = "grafana-default-email" ∧
    ∀ b, b ∈ definitions.Routes r →
      definitions.GroupByStr b = ["grafana_folder"; "alertname"].
Proof.
  eexists _, _. split; [vm_compute; reflexivity|].
  edestruct (generateRouteFromSettings_node_shape "grafana-default-email" sample.settings
               (sample.mapsKeys sample.settings)) as [(rootMatcher & _ & Hroot) Hnodes].
  - vm_compute. reflexivity.
  - split; [reflexivity|]. intros b Hb. destruct (Hnodes b Hb) as (contactMatcher & _ & ->).
    reflexivity.
Defined.

(** The same keys with the values exchanged give the same hash. *)
Lemma generateRouteFromSettings_Fingerprint_keys_witness :
  Fingerprint (generateRouteFromSettings "a" sample.settings
                 (sample.mapsKeys sample.settings)).1 =
  Fingerprint (generateRouteFromSettings "b"
                 (<[sample.Fingerprint sample.slack30 := sample.email]>
                    (<[sample.Fingerprint sample.email := sample.slack30]> ∅))
                 [sample.Fingerprint sample.email; sample.Fingerprint sample.slack30]).1.
Proof.
  edestruct (generateRouteFromSettings_Fingerprint_keys "a" "b" sample.settings
               (<[sample.Fingerprint sample.slack30 := sample.email]>
                  (<[sample.Fingerprint sample.email := sample.slack30]> ∅))
               (sample.mapsKeys sample.settings)
               [sample.Fingerprint sample.email; sample.Fingerprint sample.slack30])
    as [_ Hsame]; [..|exact Hsame].
  - unfold maps_Keys, sample.mapsKeys. reflexivity.
  - unfold maps_Keys. vm_compute. first [reflexivity | apply Permutation_swap].
  - unfold sample.settings. rewrite !dom_insert_L. reflexivity.
  - apply surjective_pairing.
  - apply surjective_pairing.
Defined.

(** The builder on the empty map. *)
Lemma generateRouteFromSettings_never_empty_witness :
  ∃ r,
    Route (generateRouteFromSettings "grafana-default-email" ∅ []).1 = Some r ∧
    definitions.Routes r = [] ∧
    Fingerprint (generateRouteFromSettings "grafana-default-email" ∅ []).1 =
      14695981039346656037.
Proof.
  edestruct (generateRouteFromSettings_never_empty "grafana-default-email" ∅ [])
    as [_ Hempty].
  - vm_compute. reflexivity.
  - destruct (Hempty eq_refl) as ((r & Hr & Hroutes) & Hhash & _).
    exists r. split_and!; [exact Hr|exact Hroutes|exact Hhash].
Defined.

Lemma AddToConfig_defaultReceiver_witness :
  AddToConfig (Some (generateRouteFromSettings "a" sample.settings
                       (sample.mapsKeys sample.settings)).1) sample.config =
  AddToConfig (Some (generateRouteFromSettings "b" sample.settings
                       (sample.mapsKeys sample.settings)).1) sample.config.
Proof.
  apply (AddToConfig_defaultReceiver "a" "b" sample.settings (sample.mapsKeys sample.settings)
           sample.config).
  eexists. reflexivity.
Defined.

(** The entry of [slack30] in the map collected from the mixed listing. *)
Lemma collect_sound_witness :
  Validate sample.validator sample.slack30 = None ∧
  ∃ ruleKey ruleSettings,
    (ruleKey, ruleSettings) ∈ (ListNotificationSettings sample.store_mixed 1).1 ∧
    sample.slack30 ∈ ruleSettings.
Proof.
  destruct (collect_sound sample.validator (ListNotificationSettings sample.store_mixed 1).1
              (sample.Fingerprint sample.slack30) sample.slack30) as (_ & Hvalid & Hlisted).
  - vm_compute. reflexivity.
  - split; [exact Hvalid|exact Hlisted].
Defined.

(** In the listing of the copies the first copy is the entry. *)
Lemma collect_first_seen_witness :
  (collect sample.validator (ListNotificationSettings sample.store_copies 1).1).1
    !! sample.Fingerprint sample.slack30 = Some sample.slack30.
Proof.
  apply (proj2 (collect_first_seen sample.validator
                  (ListNotificationSettings sample.store_copies 1).1
                  (sample.Fingerprint sample.slack30) sample.slack30)).
  exists [], [sample.slack30; sample.slack30]. split_and!.
  - vm_compute. reflexivity.
  - vm_compute. reflexivity.
  - intros x Hx. exfalso. revert Hx. apply not_elem_of_nil.
Defined.

(** The accepted objects of the sample store, and their fingerprints. *)
Lemma sample_store_inj (x y : models.NotificationSettings) :
  x ∈ valid_objects sample.validator
        [(sample.rule "a", [sample.slack30; sample.email]); (sample.rule "b", [sample.slack30])] →
  y ∈ valid_objects sample.validator
        [(sample.rule "a", [sample.slack30; sample.email]); (sample.rule "b", [sample.slack30])] →
  models.Fingerprint x = models.Fingerprint y → x = y.
Proof.
  assert (valid_objects sample.validator
            [(sample.rule "a", [sample.slack30; sample.email]);
             (sample.rule "b", [sample.slack30])] =
          [sample.slack30; sample.email; sample.slack30]) as -> by (vm_compute; reflexivity).
  rewrite !elem_of_cons, !elem_of_nil.
  intros [->|[->|[->|[]]]] [->|[->|[->|[]]]] Heq;
    first [reflexivity | vm_compute in Heq; discriminate Heq].
Qed.

(** The two rules of the sample store, listed in either order. *)
Lemma collect_order_witness :
  (collect sample.validator
     [(sample.rule "a", [sample.slack30; sample.email]); (sample.rule "b", [sample.slack30])]).1 =
  (collect sample.validator
     [(sample.rule "b", [sample.slack30]); (sample.rule "a", [sample.slack30; sample.email])]).1.
Proof.
  apply collect_order.
  - apply Permutation_swap.
  - apply sample_store_inj.
Defined.

Lemma newAutogeneratedRoute_order_witness :
  (newAutogeneratedRoute 1 sample.store "grafana-default-email" sample.validator
     sample.mapsKeys).1 =
  (newAutogeneratedRoute 1
     {| ListNotificationSettings := λ _,
          ([(sample.rule "b", [sample.slack30]);
            (sample.rule "a", [sample.slack30; sample.email])], None) |}
     "grafana-default-email" sample.validator (λ m, reverse (sample.mapsKeys m))).1.
Proof.
  apply (newAutogeneratedRoute_order 1 sample.store
           {| ListNotificationSettings := λ _,
                ([(sample.rule "b", [sample.slack30]);
                  (sample.rule "a", [sample.slack30; sample.email])], None) |}
           "grafana-default-email" sample.validator sample.mapsKeys
           (λ m, reverse (sample.mapsKeys m))
           [(sample.rule "a", [sample.slack30; sample.email]); (sample.rule "b", [sample.slack30])]
           [(sample.rule "b", [sample.slack30]); (sample.rule "a", [sample.slack30; sample.email])]).
  - reflexivity.
  - reflexivity.
  - apply Permutation_swap.
  - apply sample_store_inj.
  - intros m. unfold maps_Keys, sample.mapsKeys. reflexivity.
  - intros m. unfold maps_Keys, sample.mapsKeys. apply reverse_Permutation.
Defined.

(** The listing with rejected objects only. *)
Lemma newAutogeneratedRoute_empty_iff_witness :
  (newAutogeneratedRoute 1 sample.store_rejected "grafana-default-email" sample.validator
     sample.mapsKeys).1 = (autogeneratedRoute_zero, None).
Proof.
  apply (proj2 (newAutogeneratedRoute_empty_iff 1 sample.store_rejected "grafana-default-email"
                  sample.validator sample.mapsKeys _ eq_refl)).
  intros ruleKey ruleSettings s Hrule Hs. simpl in Hrule.
  rewrite !elem_of_cons, elem_of_nil in Hrule.
  destruct Hrule as [Heq|[Heq|[]]]; injection Heq as -> ->.
  - apply list_elem_of_singleton in Hs as ->. discriminate.
  - exfalso. revert Hs. apply not_elem_of_nil.
Defined.

(** In the mixed listing the receiver of the rejected object has no node. *)
Lemma newAutogeneratedRoute_receivers_witness :
  ∃ r F,
    (newAutogeneratedRoute 1 sample.store_mixed "grafana-default-email" sample.validator
       sample.mapsKeys).1 = ({| Route := Some r; Fingerprint := F |}, None) ∧
    ∀ name, name ∈ receivers r →
      ∃ s, s ∈ valid_objects sample.validator (ListNotificationSettings sample.store_mixed 1).1 ∧
           models.Receiver s = name.
Proof.
  eexists _, _. split; [vm_compute; reflexivity|].
  edestruct (newAutogeneratedRoute_receivers 1 sample.store_mixed "grafana-default-email"
               sample.validator sample.mapsKeys) as [Honly _].
  - reflexivity.
  - intros m. unfold maps_Keys, sample.mapsKeys. reflexivity.
  - vm_compute. reflexivity.
  - exact Honly.
Defined.

Lemma AddToConfig_twice_witness :
  ∃ a' config1 config2 root2,
    AddToConfig
      (Some {| Route := Some (sample.user_route "" [sample.user_route "slack" []]);
               Fingerprint := 7 |}) sample.config = (Some a', config1, None) ∧
    AddToConfig (Some a') config1 = (Some a', config2, None) ∧
    definitions.Config_Route (definitions.AlertmanagerConfig config2) = Some root2 ∧
    length (definitions.Routes root2) = 4%nat.
Proof.
  destruct (AddToConfig_twice
    {| Route := Some (sample.user_route "" [sample.user_route "slack" []]); Fingerprint := 7 |}
    (sample.user_route "" [sample.user_route "slack" []])
    (sample.user_route "default" [sample.user_route "pager" []; sample.user_route "mail" []])
    sample.config eq_refl eq_refl)
    as (a' & config1 & config2 & root2 & Hfirst & Hsecond & Hroot & Hroutes).
  exists a', config1, config2, root2. split_and!; try assumption.
  rewrite Hroutes. reflexivity.
Defined.

(** The keys of [slack30] and of [email], enumerated in either order. *)
Lemma generateRouteFromSettings_sorts_for_hash_witness :
  let a := sample.Fingerprint sample.slack30 in
  let b := sample.Fingerprint sample.email in
  generateRouteFromSettings "grafana-default-email" sample.settings [a; b] =
  generateRouteFromSettings "grafana-default-email" sample.settings [b; a] ∧
  Fingerprint (generateRouteFromSettings "grafana-default-email" sample.settings [a; b]).1 =
    calculateAutogeneratedRouteHash [N.min a b; N.max a b] ∧
  calculateAutogeneratedRouteHash [N.min a b; N.max a b] ≠
    calculateAutogeneratedRouteHash [a; b].
Proof.
  intros a b.
  destruct (generateRouteFromSettings_sorts_for_hash "grafana-default-email" sample.settings
              a b) as [Hswap Hhash].
  split_and!; [exact Hswap| |].
  - apply Hhash. vm_compute. reflexivity.
  - vm_compute. discriminate.
Defined.

(** In the sample memory the node 3 is merged for the first time. *)
Lemma AddToConfig_mem_values_witness :
  ∃ generatedTree' rootTree',
    load (AddToConfig_mem sample_mem.memory (Some (Some 3%nat)) (Some 0%nat)).1 2 3%nat =
      Some generatedTree' ∧
    load (AddToConfig_mem sample_mem.memory (Some (Some 3%nat)) (Some 0%nat)).1 3 0%nat =
      Some rootTree' ∧
    definitions.Receiver generatedTree' = "other" ∧
    definitions.Receiver <$> definitions.Routes rootTree' = ["other"; "default"; "pager"].
Proof.
  edestruct (AddToConfig_mem_values (Other := unit) sample_mem.memory 0%nat 3%nat 1%nat
               (sample_mem.node "other" [1%nat; 2%nat]) (sample_mem.node "" [4%nat])
               (sample.user_route "other" [sample.user_route "default" [];
                                           sample.user_route "pager" []])
               (sample.user_route "" [sample.user_route "slack" []]) 0 () ())
    as (generatedTree' & rootTree' & Hvalues & Hgen & Hroot).
  - reflexivity.
  - reflexivity.
  - discriminate.
  - intros c Hc. simpl in Hc. rewrite !elem_of_cons, elem_of_nil in Hc.
    assert (visited sample_mem.memory 1 c = [c]) as ->.
    { simpl. destruct (sample_mem.memory !! c) as [n|]; [|done]. f_equal.
      by induction (mem.Routes n). }
    destruct Hc as [->|[->|[->|[]]]]; split; intros Heq%list_elem_of_singleton;
      discriminate Heq.
  - reflexivity.
  - reflexivity.
  - exists generatedTree', rootTree'. injection Hvalues as <- <-.
    split_and!; [exact Hgen|exact Hroot|reflexivity|reflexivity].
Defined.
